(** * Text representation notebook: the custom tokenizer and its uses

    Shallow embedding of [1_NLP_Text_Representation.ipynb].  Strings are
    Rocq strings, read as the UTF-8 encodings of Python's [str] values;
    [str.lower] decodes them and applies Unicode's lowercase mapping as
    CPython does.  The spaCy pipeline is an external
    collaborator: [spacy_tokenizer] takes it as an argument [nlp], a
    function from a sentence to its sequence of tokens. *)

From Stdlib Require Import Strings.String Strings.Ascii List Bool Arith Lia.
From Stdlib Require Import ZArith QArith NArith Sorting.Sorted Sorting.Permutation.
Import ListNotations.
Open Scope nat_scope.
Open Scope string_scope.

(** ** Python string primitives *)

Module Unicode.
Local Open Scope N_scope.

(** The case tables below are those of the Unicode Character Database 14.0
    (the [unicodedata] of CPython 3.11). *)

(** Simple lowercase mappings [(c, lower c)] of the code points that Python's [str.lower] changes, apart from U+0130 (the one full mapping of more than one code point). *)
Definition lower_table : list (N * N) := [
  (0x41, 0x61); (0x42, 0x62); (0x43, 0x63); (0x44, 0x64);
  (0x45, 0x65); (0x46, 0x66); (0x47, 0x67); (0x48, 0x68);
  (0x49, 0x69); (0x4A, 0x6A); (0x4B, 0x6B); (0x4C, 0x6C);
  (0x4D, 0x6D); (0x4E, 0x6E); (0x4F, 0x6F); (0x50, 0x70);
  (0x51, 0x71); (0x52, 0x72); (0x53, 0x73); (0x54, 0x74);
  (0x55, 0x75); (0x56, 0x76); (0x57, 0x77); (0x58, 0x78);
  (0x59, 0x79); (0x5A, 0x7A); (0xC0, 0xE0); (0xC1, 0xE1);
  (0xC2, 0xE2); (0xC3, 0xE3); (0xC4, 0xE4); (0xC5, 0xE5);
  (0xC6, 0xE6); (0xC7, 0xE7); (0xC8, 0xE8); (0xC9, 0xE9);
  (0xCA, 0xEA); (0xCB, 0xEB); (0xCC, 0xEC); (0xCD, 0xED);
  (0xCE, 0xEE); (0xCF, 0xEF); (0xD0, 0xF0); (0xD1, 0xF1);
  (0xD2, 0xF2); (0xD3, 0xF3); (0xD4, 0xF4); (0xD5, 0xF5);
  (0xD6, 0xF6); (0xD8, 0xF8); (0xD9, 0xF9); (0xDA, 0xFA);
  (0xDB, 0xFB); (0xDC, 0xFC); (0xDD, 0xFD); (0xDE, 0xFE);
  (0x100, 0x101); (0x102, 0x103); (0x104, 0x105); (0x106, 0x107);
  (0x108, 0x109); (0x10A, 0x10B); (0x10C, 0x10D); (0x10E, 0x10F);
  (0x110, 0x111); (0x112, 0x113); (0x114, 0x115); (0x116, 0x117);
  (0x118, 0x119); (0x11A, 0x11B); (0x11C, 0x11D); (0x11E, 0x11F);
  (0x120, 0x121); (0x122, 0x123); (0x124, 0x125); (0x126, 0x127);
  (0x128, 0x129); (0x12A, 0x12B); (0x12C, 0x12D); (0x12E, 0x12F);
  (0x132, 0x133); (0x134, 0x135); (0x136, 0x137); (0x139, 0x13A);
  (0x13B, 0x13C); (0x13D, 0x13E); (0x13F, 0x140); (0x141, 0x142);
  (0x143, 0x144); (0x145, 0x146); (0x147, 0x148); (0x14A, 0x14B);
  (0x14C, 0x14D); (0x14E, 0x14F); (0x150, 0x151); (0x152, 0x153);
  (0x154, 0x155); (0x156, 0x157); (0x158, 0x159); (0x15A, 0x15B);
  (0x15C, 0x15D); (0x15E, 0x15F); (0x160, 0x161); (0x162, 0x163);
  (0x164, 0x165); (0x166, 0x167); (0x168, 0x169); (0x16A, 0x16B);
  (0x16C, 0x16D); (0x16E, 0x16F); (0x170, 0x171); (0x172, 0x173);
  (0x174, 0x175); (0x176, 0x177); (0x178, 0xFF); (0x179, 0x17A);
  (0x17B, 0x17C); (0x17D, 0x17E); (0x181, 0x253); (0x182, 0x183);
  (0x184, 0x185); (0x186, 0x254); (0x187, 0x188); (0x189, 0x256);
  (0x18A, 0x257); (0x18B, 0x18C); (0x18E, 0x1DD); (0x18F, 0x259);
  (0x190, 0x25B); (0x191, 0x192); (0x193, 0x260); (0x194, 0x263);
  (0x196, 0x269); (0x197, 0x268); (0x198, 0x199); (0x19C, 0x26F);
  (0x19D, 0x272); (0x19F, 0x275); (0x1A0, 0x1A1); (0x1A2, 0x1A3);
  (0x1A4, 0x1A5); (0x1A6, 0x280); (0x1A7, 0x1A8); (0x1A9, 0x283);
  (0x1AC, 0x1AD); (0x1AE, 0x288); (0x1AF, 0x1B0); (0x1B1, 0x28A);
  (0x1B2, 0x28B); (0x1B3, 0x1B4); (0x1B5, 0x1B6); (0x1B7, 0x292);
  (0x1B8, 0x1B9); (0x1BC, 0x1BD); (0x1C4, 0x1C6); (0x1C5, 0x1C6);
  (0x1C7, 0x1C9); (0x1C8, 0x1C9); (0x1CA, 0x1CC); (0x1CB, 0x1CC);
  (0x1CD, 0x1CE); (0x1CF, 0x1D0); (0x1D1, 0x1D2); (0x1D3, 0x1D4);
  (0x1D5, 0x1D6); (0x1D7, 0x1D8); (0x1D9, 0x1DA); (0x1DB, 0x1DC);
  (0x1DE, 0x1DF); (0x1E0, 0x1E1); (0x1E2, 0x1E3); (0x1E4, 0x1E5);
  (0x1E6, 0x1E7); (0x1E8, 0x1E9); (0x1EA, 0x1EB); (0x1EC, 0x1ED);
  (0x1EE, 0x1EF); (0x1F1, 0x1F3); (0x1F2, 0x1F3); (0x1F4, 0x1F5);
  (0x1F6, 0x195); (0x1F7, 0x1BF); (0x1F8, 0x1F9); (0x1FA, 0x1FB);
  (0x1FC, 0x1FD); (0x1FE, 0x1FF); (0x200, 0x201); (0x202, 0x203);
  (0x204, 0x205); (0x206, 0x207); (0x208, 0x209); (0x20A, 0x20B);
  (0x20C, 0x20D); (0x20E, 0x20F); (0x210, 0x211); (0x212, 0x213);
  (0x214, 0x215); (0x216, 0x217); (0x218, 0x219); (0x21A, 0x21B);
  (0x21C, 0x21D); (0x21E, 0x21F); (0x220, 0x19E); (0x222, 0x223);
  (0x224, 0x225); (0x226, 0x227); (0x228, 0x229); (0x22A, 0x22B);
  (0x22C, 0x22D); (0x22E, 0x22F); (0x230, 0x231); (0x232, 0x233);
  (0x23A, 0x2C65); (0x23B, 0x23C); (0x23D, 0x19A); (0x23E, 0x2C66);
  (0x241, 0x242); (0x243, 0x180); (0x244, 0x289); (0x245, 0x28C);
  (0x246, 0x247); (0x248, 0x249); (0x24A, 0x24B); (0x24C, 0x24D);
  (0x24E, 0x24F); (0x370, 0x371); (0x372, 0x373); (0x376, 0x377);
  (0x37F, 0x3F3); (0x386, 0x3AC); (0x388, 0x3AD); (0x389, 0x3AE);
  (0x38A, 0x3AF); (0x38C, 0x3CC); (0x38E, 0x3CD); (0x38F, 0x3CE);
  (0x391, 0x3B1); (0x392, 0x3B2); (0x393, 0x3B3); (0x394, 0x3B4);
  (0x395, 0x3B5); (0x396, 0x3B6); (0x397, 0x3B7); (0x398, 0x3B8);
  (0x399, 0x3B9); (0x39A, 0x3BA); (0x39B, 0x3BB); (0x39C, 0x3BC);
  (0x39D, 0x3BD); (0x39E, 0x3BE); (0x39F, 0x3BF); (0x3A0, 0x3C0);
  (0x3A1, 0x3C1); (0x3A3, 0x3C3); (0x3A4, 0x3C4); (0x3A5, 0x3C5);
  (0x3A6, 0x3C6); (0x3A7, 0x3C7); (0x3A8, 0x3C8); (0x3A9, 0x3C9);
  (0x3AA, 0x3CA); (0x3AB, 0x3CB); (0x3CF, 0x3D7); (0x3D8, 0x3D9);
  (0x3DA, 0x3DB); (0x3DC, 0x3DD); (0x3DE, 0x3DF); (0x3E0, 0x3E1);
  (0x3E2, 0x3E3); (0x3E4, 0x3E5); (0x3E6, 0x3E7); (0x3E8, 0x3E9);
  (0x3EA, 0x3EB); (0x3EC, 0x3ED); (0x3EE, 0x3EF); (0x3F4, 0x3B8);
  (0x3F7, 0x3F8); (0x3F9, 0x3F2); (0x3FA, 0x3FB); (0x3FD, 0x37B);
  (0x3FE, 0x37C); (0x3FF, 0x37D); (0x400, 0x450); (0x401, 0x451);
  (0x402, 0x452); (0x403, 0x453); (0x404, 0x454); (0x405, 0x455);
  (0x406, 0x456); (0x407, 0x457); (0x408, 0x458); (0x409, 0x459);
  (0x40A, 0x45A); (0x40B, 0x45B); (0x40C, 0x45C); (0x40D, 0x45D);
  (0x40E, 0x45E); (0x40F, 0x45F); (0x410, 0x430); (0x411, 0x431);
  (0x412, 0x432); (0x413, 0x433); (0x414, 0x434); (0x415, 0x435);
  (0x416, 0x436); (0x417, 0x437); (0x418, 0x438); (0x419, 0x439);
  (0x41A, 0x43A); (0x41B, 0x43B); (0x41C, 0x43C); (0x41D, 0x43D);
  (0x41E, 0x43E); (0x41F, 0x43F); (0x420, 0x440); (0x421, 0x441);
  (0x422, 0x442); (0x423, 0x443); (0x424, 0x444); (0x425, 0x445);
  (0x426, 0x446); (0x427, 0x447); (0x428, 0x448); (0x429, 0x449);
  (0x42A, 0x44A); (0x42B, 0x44B); (0x42C, 0x44C); (0x42D, 0x44D);
  (0x42E, 0x44E); (0x42F, 0x44F); (0x460, 0x461); (0x462, 0x463);
  (0x464, 0x465); (0x466, 0x467); (0x468, 0x469); (0x46A, 0x46B);
  (0x46C, 0x46D); (0x46E, 0x46F); (0x470, 0x471); (0x472, 0x473);
  (0x474, 0x475); (0x476, 0x477); (0x478, 0x479); (0x47A, 0x47B);
  (0x47C, 0x47D); (0x47E, 0x47F); (0x480, 0x481); (0x48A, 0x48B);
  (0x48C, 0x48D); (0x48E, 0x48F); (0x490, 0x491); (0x492, 0x493);
  (0x494, 0x495); (0x496, 0x497); (0x498, 0x499); (0x49A, 0x49B);
  (0x49C, 0x49D); (0x49E, 0x49F); (0x4A0, 0x4A1); (0x4A2, 0x4A3);
  (0x4A4, 0x4A5); (0x4A6, 0x4A7); (0x4A8, 0x4A9); (0x4AA, 0x4AB);
  (0x4AC, 0x4AD); (0x4AE, 0x4AF); (0x4B0, 0x4B1); (0x4B2, 0x4B3);
  (0x4B4, 0x4B5); (0x4B6, 0x4B7); (0x4B8, 0x4B9); (0x4BA, 0x4BB);
  (0x4BC, 0x4BD); (0x4BE, 0x4BF); (0x4C0, 0x4CF); (0x4C1, 0x4C2);
  (0x4C3, 0x4C4); (0x4C5, 0x4C6); (0x4C7, 0x4C8); (0x4C9, 0x4CA);
  (0x4CB, 0x4CC); (0x4CD, 0x4CE); (0x4D0, 0x4D1); (0x4D2, 0x4D3);
  (0x4D4, 0x4D5); (0x4D6, 0x4D7); (0x4D8, 0x4D9); (0x4DA, 0x4DB);
  (0x4DC, 0x4DD); (0x4DE, 0x4DF); (0x4E0, 0x4E1); (0x4E2, 0x4E3);
  (0x4E4, 0x4E5); (0x4E6, 0x4E7); (0x4E8, 0x4E9); (0x4EA, 0x4EB);
  (0x4EC, 0x4ED); (0x4EE, 0x4EF); (0x4F0, 0x4F1); (0x4F2, 0x4F3);
  (0x4F4, 0x4F5); (0x4F6, 0x4F7); (0x4F8, 0x4F9); (0x4FA, 0x4FB);
  (0x4FC, 0x4FD); (0x4FE, 0x4FF); (0x500, 0x501); (0x502, 0x503);
  (0x504, 0x505); (0x506, 0x507); (0x508, 0x509); (0x50A, 0x50B);
  (0x50C, 0x50D); (0x50E, 0x50F); (0x510, 0x511); (0x512, 0x513);
  (0x514, 0x515); (0x516, 0x517); (0x518, 0x519); (0x51A, 0x51B);
  (0x51C, 0x51D); (0x51E, 0x51F); (0x520, 0x521); (0x522, 0x523);
  (0x524, 0x525); (0x526, 0x527); (0x528, 0x529); (0x52A, 0x52B);
  (0x52C, 0x52D); (0x52E, 0x52F); (0x531, 0x561); (0x532, 0x562);
  (0x533, 0x563); (0x534, 0x564); (0x535, 0x565); (0x536, 0x566);
  (0x537, 0x567); (0x538, 0x568); (0x539, 0x569); (0x53A, 0x56A);
  (0x53B, 0x56B); (0x53C, 0x56C); (0x53D, 0x56D); (0x53E, 0x56E);
  (0x53F, 0x56F); (0x540, 0x570); (0x541, 0x571); (0x542, 0x572);
  (0x543, 0x573); (0x544, 0x574); (0x545, 0x575); (0x546, 0x576);
  (0x547, 0x577); (0x548, 0x578); (0x549, 0x579); (0x54A, 0x57A);
  (0x54B, 0x57B); (0x54C, 0x57C); (0x54D, 0x57D); (0x54E, 0x57E);
  (0x54F, 0x57F); (0x550, 0x580); (0x551, 0x581); (0x552, 0x582);
  (0x553, 0x583); (0x554, 0x584); (0x555, 0x585); (0x556, 0x586);
  (0x10A0, 0x2D00); (0x10A1, 0x2D01); (0x10A2, 0x2D02); (0x10A3, 0x2D03);
  (0x10A4, 0x2D04); (0x10A5, 0x2D05); (0x10A6, 0x2D06); (0x10A7, 0x2D07);
  (0x10A8, 0x2D08); (0x10A9, 0x2D09); (0x10AA, 0x2D0A); (0x10AB, 0x2D0B);
  (0x10AC, 0x2D0C); (0x10AD, 0x2D0D); (0x10AE, 0x2D0E); (0x10AF, 0x2D0F);
  (0x10B0, 0x2D10); (0x10B1, 0x2D11); (0x10B2, 0x2D12); (0x10B3, 0x2D13);
  (0x10B4, 0x2D14); (0x10B5, 0x2D15); (0x10B6, 0x2D16); (0x10B7, 0x2D17);
  (0x10B8, 0x2D18); (0x10B9, 0x2D19); (0x10BA, 0x2D1A); (0x10BB, 0x2D1B);
  (0x10BC, 0x2D1C); (0x10BD, 0x2D1D); (0x10BE, 0x2D1E); (0x10BF, 0x2D1F);
  (0x10C0, 0x2D20); (0x10C1, 0x2D21); (0x10C2, 0x2D22); (0x10C3, 0x2D23);
  (0x10C4, 0x2D24); (0x10C5, 0x2D25); (0x10C7, 0x2D27); (0x10CD, 0x2D2D);
  (0x13A0, 0xAB70); (0x13A1, 0xAB71); (0x13A2, 0xAB72); (0x13A3, 0xAB73);
  (0x13A4, 0xAB74); (0x13A5, 0xAB75); (0x13A6, 0xAB76); (0x13A7, 0xAB77);
  (0x13A8, 0xAB78); (0x13A9, 0xAB79); (0x13AA, 0xAB7A); (0x13AB, 0xAB7B);
  (0x13AC, 0xAB7C); (0x13AD, 0xAB7D); (0x13AE, 0xAB7E); (0x13AF, 0xAB7F);
  (0x13B0, 0xAB80); (0x13B1, 0xAB81); (0x13B2, 0xAB82); (0x13B3, 0xAB83);
  (0x13B4, 0xAB84); (0x13B5, 0xAB85); (0x13B6, 0xAB86); (0x13B7, 0xAB87);
  (0x13B8, 0xAB88); (0x13B9, 0xAB89); (0x13BA, 0xAB8A); (0x13BB, 0xAB8B);
  (0x13BC, 0xAB8C); (0x13BD, 0xAB8D); (0x13BE, 0xAB8E); (0x13BF, 0xAB8F);
  (0x13C0, 0xAB90); (0x13C1, 0xAB91); (0x13C2, 0xAB92); (0x13C3, 0xAB93);
  (0x13C4, 0xAB94); (0x13C5, 0xAB95); (0x13C6, 0xAB96); (0x13C7, 0xAB97);
  (0x13C8, 0xAB98); (0x13C9, 0xAB99); (0x13CA, 0xAB9A); (0x13CB, 0xAB9B);
  (0x13CC, 0xAB9C); (0x13CD, 0xAB9D); (0x13CE, 0xAB9E); (0x13CF, 0xAB9F);
  (0x13D0, 0xABA0); (0x13D1, 0xABA1); (0x13D2, 0xABA2); (0x13D3, 0xABA3);
  (0x13D4, 0xABA4); (0x13D5, 0xABA5); (0x13D6, 0xABA6); (0x13D7, 0xABA7);
  (0x13D8, 0xABA8); (0x13D9, 0xABA9); (0x13DA, 0xABAA); (0x13DB, 0xABAB);
  (0x13DC, 0xABAC); (0x13DD, 0xABAD); (0x13DE, 0xABAE); (0x13DF, 0xABAF);
  (0x13E0, 0xABB0); (0x13E1, 0xABB1); (0x13E2, 0xABB2); (0x13E3, 0xABB3);
  (0x13E4, 0xABB4); (0x13E5, 0xABB5); (0x13E6, 0xABB6); (0x13E7, 0xABB7);
  (0x13E8, 0xABB8); (0x13E9, 0xABB9); (0x13EA, 0xABBA); (0x13EB, 0xABBB);
  (0x13EC, 0xABBC); (0x13ED, 0xABBD); (0x13EE, 0xABBE); (0x13EF, 0xABBF);
  (0x13F0, 0x13F8); (0x13F1, 0x13F9); (0x13F2, 0x13FA); (0x13F3, 0x13FB);
  (0x13F4, 0x13FC); (0x13F5, 0x13FD); (0x1C90, 0x10D0); (0x1C91, 0x10D1);
  (0x1C92, 0x10D2); (0x1C93, 0x10D3); (0x1C94, 0x10D4); (0x1C95, 0x10D5);
  (0x1C96, 0x10D6); (0x1C97, 0x10D7); (0x1C98, 0x10D8); (0x1C99, 0x10D9);
  (0x1C9A, 0x10DA); (0x1C9B, 0x10DB); (0x1C9C, 0x10DC); (0x1C9D, 0x10DD);
  (0x1C9E, 0x10DE); (0x1C9F, 0x10DF); (0x1CA0, 0x10E0); (0x1CA1, 0x10E1);
  (0x1CA2, 0x10E2); (0x1CA3, 0x10E3); (0x1CA4, 0x10E4); (0x1CA5, 0x10E5);
  (0x1CA6, 0x10E6); (0x1CA7, 0x10E7); (0x1CA8, 0x10E8); (0x1CA9, 0x10E9);
  (0x1CAA, 0x10EA); (0x1CAB, 0x10EB); (0x1CAC, 0x10EC); (0x1CAD, 0x10ED);
  (0x1CAE, 0x10EE); (0x1CAF, 0x10EF); (0x1CB0, 0x10F0); (0x1CB1, 0x10F1);
  (0x1CB2, 0x10F2); (0x1CB3, 0x10F3); (0x1CB4, 0x10F4); (0x1CB5, 0x10F5);
  (0x1CB6, 0x10F6); (0x1CB7, 0x10F7); (0x1CB8, 0x10F8); (0x1CB9, 0x10F9);
  (0x1CBA, 0x10FA); (0x1CBD, 0x10FD); (0x1CBE, 0x10FE); (0x1CBF, 0x10FF);
  (0x1E00, 0x1E01); (0x1E02, 0x1E03); (0x1E04, 0x1E05); (0x1E06, 0x1E07);
  (0x1E08, 0x1E09); (0x1E0A, 0x1E0B); (0x1E0C, 0x1E0D); (0x1E0E, 0x1E0F);
  (0x1E10, 0x1E11); (0x1E12, 0x1E13); (0x1E14, 0x1E15); (0x1E16, 0x1E17);
  (0x1E18, 0x1E19); (0x1E1A, 0x1E1B); (0x1E1C, 0x1E1D); (0x1E1E, 0x1E1F);
  (0x1E20, 0x1E21); (0x1E22, 0x1E23); (0x1E24, 0x1E25); (0x1E26, 0x1E27);
  (0x1E28, 0x1E29); (0x1E2A, 0x1E2B); (0x1E2C, 0x1E2D); (0x1E2E, 0x1E2F);
  (0x1E30, 0x1E31); (0x1E32, 0x1E33); (0x1E34, 0x1E35); (0x1E36, 0x1E37);
  (0x1E38, 0x1E39); (0x1E3A, 0x1E3B); (0x1E3C, 0x1E3D); (0x1E3E, 0x1E3F);
  (0x1E40, 0x1E41); (0x1E42, 0x1E43); (0x1E44, 0x1E45); (0x1E46, 0x1E47);
  (0x1E48, 0x1E49); (0x1E4A, 0x1E4B); (0x1E4C, 0x1E4D); (0x1E4E, 0x1E4F);
  (0x1E50, 0x1E51); (0x1E52, 0x1E53); (0x1E54, 0x1E55); (0x1E56, 0x1E57);
  (0x1E58, 0x1E59); (0x1E5A, 0x1E5B); (0x1E5C, 0x1E5D); (0x1E5E, 0x1E5F);
  (0x1E60, 0x1E61); (0x1E62, 0x1E63); (0x1E64, 0x1E65); (0x1E66, 0x1E67);
  (0x1E68, 0x1E69); (0x1E6A, 0x1E6B); (0x1E6C, 0x1E6D); (0x1E6E, 0x1E6F);
  (0x1E70, 0x1E71); (0x1E72, 0x1E73); (0x1E74, 0x1E75); (0x1E76, 0x1E77);
  (0x1E78, 0x1E79); (0x1E7A, 0x1E7B); (0x1E7C, 0x1E7D); (0x1E7E, 0x1E7F);
  (0x1E80, 0x1E81); (0x1E82, 0x1E83); (0x1E84, 0x1E85); (0x1E86, 0x1E87);
  (0x1E88, 0x1E89); (0x1E8A, 0x1E8B); (0x1E8C, 0x1E8D); (0x1E8E, 0x1E8F);
  (0x1E90, 0x1E91); (0x1E92, 0x1E93); (0x1E94, 0x1E95); (0x1E9E, 0xDF);
  (0x1EA0, 0x1EA1); (0x1EA2, 0x1EA3); (0x1EA4, 0x1EA5); (0x1EA6, 0x1EA7);
  (0x1EA8, 0x1EA9); (0x1EAA, 0x1EAB); (0x1EAC, 0x1EAD); (0x1EAE, 0x1EAF);
  (0x1EB0, 0x1EB1); (0x1EB2, 0x1EB3); (0x1EB4, 0x1EB5); (0x1EB6, 0x1EB7);
  (0x1EB8, 0x1EB9); (0x1EBA, 0x1EBB); (0x1EBC, 0x1EBD); (0x1EBE, 0x1EBF);
  (0x1EC0, 0x1EC1); (0x1EC2, 0x1EC3); (0x1EC4, 0x1EC5); (0x1EC6, 0x1EC7);
  (0x1EC8, 0x1EC9); (0x1ECA, 0x1ECB); (0x1ECC, 0x1ECD); (0x1ECE, 0x1ECF);
  (0x1ED0, 0x1ED1); (0x1ED2, 0x1ED3); (0x1ED4, 0x1ED5); (0x1ED6, 0x1ED7);
  (0x1ED8, 0x1ED9); (0x1EDA, 0x1EDB); (0x1EDC, 0x1EDD); (0x1EDE, 0x1EDF);
  (0x1EE0, 0x1EE1); (0x1EE2, 0x1EE3); (0x1EE4, 0x1EE5); (0x1EE6, 0x1EE7);
  (0x1EE8, 0x1EE9); (0x1EEA, 0x1EEB); (0x1EEC, 0x1EED); (0x1EEE, 0x1EEF);
  (0x1EF0, 0x1EF1); (0x1EF2, 0x1EF3); (0x1EF4, 0x1EF5); (0x1EF6, 0x1EF7);
  (0x1EF8, 0x1EF9); (0x1EFA, 0x1EFB); (0x1EFC, 0x1EFD); (0x1EFE, 0x1EFF);
  (0x1F08, 0x1F00); (0x1F09, 0x1F01); (0x1F0A, 0x1F02); (0x1F0B, 0x1F03);
  (0x1F0C, 0x1F04); (0x1F0D, 0x1F05); (0x1F0E, 0x1F06); (0x1F0F, 0x1F07);
  (0x1F18, 0x1F10); (0x1F19, 0x1F11); (0x1F1A, 0x1F12); (0x1F1B, 0x1F13);
  (0x1F1C, 0x1F14); (0x1F1D, 0x1F15); (0x1F28, 0x1F20); (0x1F29, 0x1F21);
  (0x1F2A, 0x1F22); (0x1F2B, 0x1F23); (0x1F2C, 0x1F24); (0x1F2D, 0x1F25);
  (0x1F2E, 0x1F26); (0x1F2F, 0x1F27); (0x1F38, 0x1F30); (0x1F39, 0x1F31);
  (0x1F3A, 0x1F32); (0x1F3B, 0x1F33); (0x1F3C, 0x1F34); (0x1F3D, 0x1F35);
  (0x1F3E, 0x1F36); (0x1F3F, 0x1F37); (0x1F48, 0x1F40); (0x1F49, 0x1F41);
  (0x1F4A, 0x1F42); (0x1F4B, 0x1F43); (0x1F4C, 0x1F44); (0x1F4D, 0x1F45);
  (0x1F59, 0x1F51); (0x1F5B, 0x1F53); (0x1F5D, 0x1F55); (0x1F5F, 0x1F57);
  (0x1F68, 0x1F60); (0x1F69, 0x1F61); (0x1F6A, 0x1F62); (0x1F6B, 0x1F63);
  (0x1F6C, 0x1F64); (0x1F6D, 0x1F65); (0x1F6E, 0x1F66); (0x1F6F, 0x1F67);
  (0x1F88, 0x1F80); (0x1F89, 0x1F81); (0x1F8A, 0x1F82); (0x1F8B, 0x1F83);
  (0x1F8C, 0x1F84); (0x1F8D, 0x1F85); (0x1F8E, 0x1F86); (0x1F8F, 0x1F87);
  (0x1F98, 0x1F90); (0x1F99, 0x1F91); (0x1F9A, 0x1F92); (0x1F9B, 0x1F93);
  (0x1F9C, 0x1F94); (0x1F9D, 0x1F95); (0x1F9E, 0x1F96); (0x1F9F, 0x1F97);
  (0x1FA8, 0x1FA0); (0x1FA9, 0x1FA1); (0x1FAA, 0x1FA2); (0x1FAB, 0x1FA3);
  (0x1FAC, 0x1FA4); (0x1FAD, 0x1FA5); (0x1FAE, 0x1FA6); (0x1FAF, 0x1FA7);
  (0x1FB8, 0x1FB0); (0x1FB9, 0x1FB1); (0x1FBA, 0x1F70); (0x1FBB, 0x1F71);
  (0x1FBC, 0x1FB3); (0x1FC8, 0x1F72); (0x1FC9, 0x1F73); (0x1FCA, 0x1F74);
  (0x1FCB, 0x1F75); (0x1FCC, 0x1FC3); (0x1FD8, 0x1FD0); (0x1FD9, 0x1FD1);
  (0x1FDA, 0x1F76); (0x1FDB, 0x1F77); (0x1FE8, 0x1FE0); (0x1FE9, 0x1FE1);
  (0x1FEA, 0x1F7A); (0x1FEB, 0x1F7B); (0x1FEC, 0x1FE5); (0x1FF8, 0x1F78);
  (0x1FF9, 0x1F79); (0x1FFA, 0x1F7C); (0x1FFB, 0x1F7D); (0x1FFC, 0x1FF3);
  (0x2126, 0x3C9); (0x212A, 0x6B); (0x212B, 0xE5); (0x2132, 0x214E);
  (0x2160, 0x2170); (0x2161, 0x2171); (0x2162, 0x2172); (0x2163, 0x2173);
  (0x2164, 0x2174); (0x2165, 0x2175); (0x2166, 0x2176); (0x2167, 0x2177);
  (0x2168, 0x2178); (0x2169, 0x2179); (0x216A, 0x217A); (0x216B, 0x217B);
  (0x216C, 0x217C); (0x216D, 0x217D); (0x216E, 0x217E); (0x216F, 0x217F);
  (0x2183, 0x2184); (0x24B6, 0x24D0); (0x24B7, 0x24D1); (0x24B8, 0x24D2);
  (0x24B9, 0x24D3); (0x24BA, 0x24D4); (0x24BB, 0x24D5); (0x24BC, 0x24D6);
  (0x24BD, 0x24D7); (0x24BE, 0x24D8); (0x24BF, 0x24D9); (0x24C0, 0x24DA);
  (0x24C1, 0x24DB); (0x24C2, 0x24DC); (0x24C3, 0x24DD); (0x24C4, 0x24DE);
  (0x24C5, 0x24DF); (0x24C6, 0x24E0); (0x24C7, 0x24E1); (0x24C8, 0x24E2);
  (0x24C9, 0x24E3); (0x24CA, 0x24E4); (0x24CB, 0x24E5); (0x24CC, 0x24E6);
  (0x24CD, 0x24E7); (0x24CE, 0x24E8); (0x24CF, 0x24E9); (0x2C00, 0x2C30);
  (0x2C01, 0x2C31); (0x2C02, 0x2C32); (0x2C03, 0x2C33); (0x2C04, 0x2C34);
  (0x2C05, 0x2C35); (0x2C06, 0x2C36); (0x2C07, 0x2C37); (0x2C08, 0x2C38);
  (0x2C09, 0x2C39); (0x2C0A, 0x2C3A); (0x2C0B, 0x2C3B); (0x2C0C, 0x2C3C);
  (0x2C0D, 0x2C3D); (0x2C0E, 0x2C3E); (0x2C0F, 0x2C3F); (0x2C10, 0x2C40);
  (0x2C11, 0x2C41); (0x2C12, 0x2C42); (0x2C13, 0x2C43); (0x2C14, 0x2C44);
  (0x2C15, 0x2C45); (0x2C16, 0x2C46); (0x2C17, 0x2C47); (0x2C18, 0x2C48);
  (0x2C19, 0x2C49); (0x2C1A, 0x2C4A); (0x2C1B, 0x2C4B); (0x2C1C, 0x2C4C);
  (0x2C1D, 0x2C4D); (0x2C1E, 0x2C4E); (0x2C1F, 0x2C4F); (0x2C20, 0x2C50);
  (0x2C21, 0x2C51); (0x2C22, 0x2C52); (0x2C23, 0x2C53); (0x2C24, 0x2C54);
  (0x2C25, 0x2C55); (0x2C26, 0x2C56); (0x2C27, 0x2C57); (0x2C28, 0x2C58);
  (0x2C29, 0x2C59); (0x2C2A, 0x2C5A); (0x2C2B, 0x2C5B); (0x2C2C, 0x2C5C);
  (0x2C2D, 0x2C5D); (0x2C2E, 0x2C5E); (0x2C2F, 0x2C5F); (0x2C60, 0x2C61);
  (0x2C62, 0x26B); (0x2C63, 0x1D7D); (0x2C64, 0x27D); (0x2C67, 0x2C68);
  (0x2C69, 0x2C6A); (0x2C6B, 0x2C6C); (0x2C6D, 0x251); (0x2C6E, 0x271);
  (0x2C6F, 0x250); (0x2C70, 0x252); (0x2C72, 0x2C73); (0x2C75, 0x2C76);
  (0x2C7E, 0x23F); (0x2C7F, 0x240); (0x2C80, 0x2C81); (0x2C82, 0x2C83);
  (0x2C84, 0x2C85); (0x2C86, 0x2C87); (0x2C88, 0x2C89); (0x2C8A, 0x2C8B);
  (0x2C8C, 0x2C8D); (0x2C8E, 0x2C8F); (0x2C90, 0x2C91); (0x2C92, 0x2C93);
  (0x2C94, 0x2C95); (0x2C96, 0x2C97); (0x2C98, 0x2C99); (0x2C9A, 0x2C9B);
  (0x2C9C, 0x2C9D); (0x2C9E, 0x2C9F); (0x2CA0, 0x2CA1); (0x2CA2, 0x2CA3);
  (0x2CA4, 0x2CA5); (0x2CA6, 0x2CA7); (0x2CA8, 0x2CA9); (0x2CAA, 0x2CAB);
  (0x2CAC, 0x2CAD); (0x2CAE, 0x2CAF); (0x2CB0, 0x2CB1); (0x2CB2, 0x2CB3);
  (0x2CB4, 0x2CB5); (0x2CB6, 0x2CB7); (0x2CB8, 0x2CB9); (0x2CBA, 0x2CBB);
  (0x2CBC, 0x2CBD); (0x2CBE, 0x2CBF); (0x2CC0, 0x2CC1); (0x2CC2, 0x2CC3);
  (0x2CC4, 0x2CC5); (0x2CC6, 0x2CC7); (0x2CC8, 0x2CC9); (0x2CCA, 0x2CCB);
  (0x2CCC, 0x2CCD); (0x2CCE, 0x2CCF); (0x2CD0, 0x2CD1); (0x2CD2, 0x2CD3);
  (0x2CD4, 0x2CD5); (0x2CD6, 0x2CD7); (0x2CD8, 0x2CD9); (0x2CDA, 0x2CDB);
  (0x2CDC, 0x2CDD); (0x2CDE, 0x2CDF); (0x2CE0, 0x2CE1); (0x2CE2, 0x2CE3);
  (0x2CEB, 0x2CEC); (0x2CED, 0x2CEE); (0x2CF2, 0x2CF3); (0xA640, 0xA641);
  (0xA642, 0xA643); (0xA644, 0xA645); (0xA646, 0xA647); (0xA648, 0xA649);
  (0xA64A, 0xA64B); (0xA64C, 0xA64D); (0xA64E, 0xA64F); (0xA650, 0xA651);
  (0xA652, 0xA653); (0xA654, 0xA655); (0xA656, 0xA657); (0xA658, 0xA659);
  (0xA65A, 0xA65B); (0xA65C, 0xA65D); (0xA65E, 0xA65F); (0xA660, 0xA661);
  (0xA662, 0xA663); (0xA664, 0xA665); (0xA666, 0xA667); (0xA668, 0xA669);
  (0xA66A, 0xA66B); (0xA66C, 0xA66D); (0xA680, 0xA681); (0xA682, 0xA683);
  (0xA684, 0xA685); (0xA686, 0xA687); (0xA688, 0xA689); (0xA68A, 0xA68B);
  (0xA68C, 0xA68D); (0xA68E, 0xA68F); (0xA690, 0xA691); (0xA692, 0xA693);
  (0xA694, 0xA695); (0xA696, 0xA697); (0xA698, 0xA699); (0xA69A, 0xA69B);
  (0xA722, 0xA723); (0xA724, 0xA725); (0xA726, 0xA727); (0xA728, 0xA729);
  (0xA72A, 0xA72B); (0xA72C, 0xA72D); (0xA72E, 0xA72F); (0xA732, 0xA733);
  (0xA734, 0xA735); (0xA736, 0xA737); (0xA738, 0xA739); (0xA73A, 0xA73B);
  (0xA73C, 0xA73D); (0xA73E, 0xA73F); (0xA740, 0xA741); (0xA742, 0xA743);
  (0xA744, 0xA745); (0xA746, 0xA747); (0xA748, 0xA749); (0xA74A, 0xA74B);
  (0xA74C, 0xA74D); (0xA74E, 0xA74F); (0xA750, 0xA751); (0xA752, 0xA753);
  (0xA754, 0xA755); (0xA756, 0xA757); (0xA758, 0xA759); (0xA75A, 0xA75B);
  (0xA75C, 0xA75D); (0xA75E, 0xA75F); (0xA760, 0xA761); (0xA762, 0xA763);
  (0xA764, 0xA765); (0xA766, 0xA767); (0xA768, 0xA769); (0xA76A, 0xA76B);
  (0xA76C, 0xA76D); (0xA76E, 0xA76F); (0xA779, 0xA77A); (0xA77B, 0xA77C);
  (0xA77D, 0x1D79); (0xA77E, 0xA77F); (0xA780, 0xA781); (0xA782, 0xA783);
  (0xA784, 0xA785); (0xA786, 0xA787); (0xA78B, 0xA78C); (0xA78D, 0x265);
  (0xA790, 0xA791); (0xA792, 0xA793); (0xA796, 0xA797); (0xA798, 0xA799);
  (0xA79A, 0xA79B); (0xA79C, 0xA79D); (0xA79E, 0xA79F); (0xA7A0, 0xA7A1);
  (0xA7A2, 0xA7A3); (0xA7A4, 0xA7A5); (0xA7A6, 0xA7A7); (0xA7A8, 0xA7A9);
  (0xA7AA, 0x266); (0xA7AB, 0x25C); (0xA7AC, 0x261); (0xA7AD, 0x26C);
  (0xA7AE, 0x26A); (0xA7B0, 0x29E); (0xA7B1, 0x287); (0xA7B2, 0x29D);
  (0xA7B3, 0xAB53); (0xA7B4, 0xA7B5); (0xA7B6, 0xA7B7); (0xA7B8, 0xA7B9);
  (0xA7BA, 0xA7BB); (0xA7BC, 0xA7BD); (0xA7BE, 0xA7BF); (0xA7C0, 0xA7C1);
  (0xA7C2, 0xA7C3); (0xA7C4, 0xA794); (0xA7C5, 0x282); (0xA7C6, 0x1D8E);
  (0xA7C7, 0xA7C8); (0xA7C9, 0xA7CA); (0xA7D0, 0xA7D1); (0xA7D6, 0xA7D7);
  (0xA7D8, 0xA7D9); (0xA7F5, 0xA7F6); (0xFF21, 0xFF41); (0xFF22, 0xFF42);
  (0xFF23, 0xFF43); (0xFF24, 0xFF44); (0xFF25, 0xFF45); (0xFF26, 0xFF46);
  (0xFF27, 0xFF47); (0xFF28, 0xFF48); (0xFF29, 0xFF49); (0xFF2A, 0xFF4A);
  (0xFF2B, 0xFF4B); (0xFF2C, 0xFF4C); (0xFF2D, 0xFF4D); (0xFF2E, 0xFF4E);
  (0xFF2F, 0xFF4F); (0xFF30, 0xFF50); (0xFF31, 0xFF51); (0xFF32, 0xFF52);
  (0xFF33, 0xFF53); (0xFF34, 0xFF54); (0xFF35, 0xFF55); (0xFF36, 0xFF56);
  (0xFF37, 0xFF57); (0xFF38, 0xFF58); (0xFF39, 0xFF59); (0xFF3A, 0xFF5A);
  (0x10400, 0x10428); (0x10401, 0x10429); (0x10402, 0x1042A); (0x10403, 0x1042B);
  (0x10404, 0x1042C); (0x10405, 0x1042D); (0x10406, 0x1042E); (0x10407, 0x1042F);
  (0x10408, 0x10430); (0x10409, 0x10431); (0x1040A, 0x10432); (0x1040B, 0x10433);
  (0x1040C, 0x10434); (0x1040D, 0x10435); (0x1040E, 0x10436); (0x1040F, 0x10437);
  (0x10410, 0x10438); (0x10411, 0x10439); (0x10412, 0x1043A); (0x10413, 0x1043B);
  (0x10414, 0x1043C); (0x10415, 0x1043D); (0x10416, 0x1043E); (0x10417, 0x1043F);
  (0x10418, 0x10440); (0x10419, 0x10441); (0x1041A, 0x10442); (0x1041B, 0x10443);
  (0x1041C, 0x10444); (0x1041D, 0x10445); (0x1041E, 0x10446); (0x1041F, 0x10447);
  (0x10420, 0x10448); (0x10421, 0x10449); (0x10422, 0x1044A); (0x10423, 0x1044B);
  (0x10424, 0x1044C); (0x10425, 0x1044D); (0x10426, 0x1044E); (0x10427, 0x1044F);
  (0x104B0, 0x104D8); (0x104B1, 0x104D9); (0x104B2, 0x104DA); (0x104B3, 0x104DB);
  (0x104B4, 0x104DC); (0x104B5, 0x104DD); (0x104B6, 0x104DE); (0x104B7, 0x104DF);
  (0x104B8, 0x104E0); (0x104B9, 0x104E1); (0x104BA, 0x104E2); (0x104BB, 0x104E3);
  (0x104BC, 0x104E4); (0x104BD, 0x104E5); (0x104BE, 0x104E6); (0x104BF, 0x104E7);
  (0x104C0, 0x104E8); (0x104C1, 0x104E9); (0x104C2, 0x104EA); (0x104C3, 0x104EB);
  (0x104C4, 0x104EC); (0x104C5, 0x104ED); (0x104C6, 0x104EE); (0x104C7, 0x104EF);
  (0x104C8, 0x104F0); (0x104C9, 0x104F1); (0x104CA, 0x104F2); (0x104CB, 0x104F3);
  (0x104CC, 0x104F4); (0x104CD, 0x104F5); (0x104CE, 0x104F6); (0x104CF, 0x104F7);
  (0x104D0, 0x104F8); (0x104D1, 0x104F9); (0x104D2, 0x104FA); (0x104D3, 0x104FB);
  (0x10570, 0x10597); (0x10571, 0x10598); (0x10572, 0x10599); (0x10573, 0x1059A);
  (0x10574, 0x1059B); (0x10575, 0x1059C); (0x10576, 0x1059D); (0x10577, 0x1059E);
  (0x10578, 0x1059F); (0x10579, 0x105A0); (0x1057A, 0x105A1); (0x1057C, 0x105A3);
  (0x1057D, 0x105A4); (0x1057E, 0x105A5); (0x1057F, 0x105A6); (0x10580, 0x105A7);
  (0x10581, 0x105A8); (0x10582, 0x105A9); (0x10583, 0x105AA); (0x10584, 0x105AB);
  (0x10585, 0x105AC); (0x10586, 0x105AD); (0x10587, 0x105AE); (0x10588, 0x105AF);
  (0x10589, 0x105B0); (0x1058A, 0x105B1); (0x1058C, 0x105B3); (0x1058D, 0x105B4);
  (0x1058E, 0x105B5); (0x1058F, 0x105B6); (0x10590, 0x105B7); (0x10591, 0x105B8);
  (0x10592, 0x105B9); (0x10594, 0x105BB); (0x10595, 0x105BC); (0x10C80, 0x10CC0);
  (0x10C81, 0x10CC1); (0x10C82, 0x10CC2); (0x10C83, 0x10CC3); (0x10C84, 0x10CC4);
  (0x10C85, 0x10CC5); (0x10C86, 0x10CC6); (0x10C87, 0x10CC7); (0x10C88, 0x10CC8);
  (0x10C89, 0x10CC9); (0x10C8A, 0x10CCA); (0x10C8B, 0x10CCB); (0x10C8C, 0x10CCC);
  (0x10C8D, 0x10CCD); (0x10C8E, 0x10CCE); (0x10C8F, 0x10CCF); (0x10C90, 0x10CD0);
  (0x10C91, 0x10CD1); (0x10C92, 0x10CD2); (0x10C93, 0x10CD3); (0x10C94, 0x10CD4);
  (0x10C95, 0x10CD5); (0x10C96, 0x10CD6); (0x10C97, 0x10CD7); (0x10C98, 0x10CD8);
  (0x10C99, 0x10CD9); (0x10C9A, 0x10CDA); (0x10C9B, 0x10CDB); (0x10C9C, 0x10CDC);
  (0x10C9D, 0x10CDD); (0x10C9E, 0x10CDE); (0x10C9F, 0x10CDF); (0x10CA0, 0x10CE0);
  (0x10CA1, 0x10CE1); (0x10CA2, 0x10CE2); (0x10CA3, 0x10CE3); (0x10CA4, 0x10CE4);
  (0x10CA5, 0x10CE5); (0x10CA6, 0x10CE6); (0x10CA7, 0x10CE7); (0x10CA8, 0x10CE8);
  (0x10CA9, 0x10CE9); (0x10CAA, 0x10CEA); (0x10CAB, 0x10CEB); (0x10CAC, 0x10CEC);
  (0x10CAD, 0x10CED); (0x10CAE, 0x10CEE); (0x10CAF, 0x10CEF); (0x10CB0, 0x10CF0);
  (0x10CB1, 0x10CF1); (0x10CB2, 0x10CF2); (0x118A0, 0x118C0); (0x118A1, 0x118C1);
  (0x118A2, 0x118C2); (0x118A3, 0x118C3); (0x118A4, 0x118C4); (0x118A5, 0x118C5);
  (0x118A6, 0x118C6); (0x118A7, 0x118C7); (0x118A8, 0x118C8); (0x118A9, 0x118C9);
  (0x118AA, 0x118CA); (0x118AB, 0x118CB); (0x118AC, 0x118CC); (0x118AD, 0x118CD);
  (0x118AE, 0x118CE); (0x118AF, 0x118CF); (0x118B0, 0x118D0); (0x118B1, 0x118D1);
  (0x118B2, 0x118D2); (0x118B3, 0x118D3); (0x118B4, 0x118D4); (0x118B5, 0x118D5);
  (0x118B6, 0x118D6); (0x118B7, 0x118D7); (0x118B8, 0x118D8); (0x118B9, 0x118D9);
  (0x118BA, 0x118DA); (0x118BB, 0x118DB); (0x118BC, 0x118DC); (0x118BD, 0x118DD);
  (0x118BE, 0x118DE); (0x118BF, 0x118DF); (0x16E40, 0x16E60); (0x16E41, 0x16E61);
  (0x16E42, 0x16E62); (0x16E43, 0x16E63); (0x16E44, 0x16E64); (0x16E45, 0x16E65);
  (0x16E46, 0x16E66); (0x16E47, 0x16E67); (0x16E48, 0x16E68); (0x16E49, 0x16E69);
  (0x16E4A, 0x16E6A); (0x16E4B, 0x16E6B); (0x16E4C, 0x16E6C); (0x16E4D, 0x16E6D);
  (0x16E4E, 0x16E6E); (0x16E4F, 0x16E6F); (0x16E50, 0x16E70); (0x16E51, 0x16E71);
  (0x16E52, 0x16E72); (0x16E53, 0x16E73); (0x16E54, 0x16E74); (0x16E55, 0x16E75);
  (0x16E56, 0x16E76); (0x16E57, 0x16E77); (0x16E58, 0x16E78); (0x16E59, 0x16E79);
  (0x16E5A, 0x16E7A); (0x16E5B, 0x16E7B); (0x16E5C, 0x16E7C); (0x16E5D, 0x16E7D);
  (0x16E5E, 0x16E7E); (0x16E5F, 0x16E7F); (0x1E900, 0x1E922); (0x1E901, 0x1E923);
  (0x1E902, 0x1E924); (0x1E903, 0x1E925); (0x1E904, 0x1E926); (0x1E905, 0x1E927);
  (0x1E906, 0x1E928); (0x1E907, 0x1E929); (0x1E908, 0x1E92A); (0x1E909, 0x1E92B);
  (0x1E90A, 0x1E92C); (0x1E90B, 0x1E92D); (0x1E90C, 0x1E92E); (0x1E90D, 0x1E92F);
  (0x1E90E, 0x1E930); (0x1E90F, 0x1E931); (0x1E910, 0x1E932); (0x1E911, 0x1E933);
  (0x1E912, 0x1E934); (0x1E913, 0x1E935); (0x1E914, 0x1E936); (0x1E915, 0x1E937);
  (0x1E916, 0x1E938); (0x1E917, 0x1E939); (0x1E918, 0x1E93A); (0x1E919, 0x1E93B);
  (0x1E91A, 0x1E93C); (0x1E91B, 0x1E93D); (0x1E91C, 0x1E93E); (0x1E91D, 0x1E93F);
  (0x1E91E, 0x1E940); (0x1E91F, 0x1E941); (0x1E920, 0x1E942); (0x1E921, 0x1E943)
].

(** The [Cased] property, as ranges [(lo, hi)] of code points. *)
Definition cased_ranges : list (N * N) := [
  (0x41, 0x5A); (0x61, 0x7A); (0xAA, 0xAA); (0xB5, 0xB5);
  (0xBA, 0xBA); (0xC0, 0xD6); (0xD8, 0xF6); (0xF8, 0x1BA);
  (0x1BC, 0x1BF); (0x1C4, 0x293); (0x295, 0x2B8); (0x2C0, 0x2C1);
  (0x2E0, 0x2E4); (0x345, 0x345); (0x370, 0x373); (0x376, 0x377);
  (0x37A, 0x37D); (0x37F, 0x37F); (0x386, 0x386); (0x388, 0x38A);
  (0x38C, 0x38C); (0x38E, 0x3A1); (0x3A3, 0x3F5); (0x3F7, 0x481);
  (0x48A, 0x52F); (0x531, 0x556); (0x560, 0x588); (0x10A0, 0x10C5);
  (0x10C7, 0x10C7); (0x10CD, 0x10CD); (0x10D0, 0x10FA); (0x10FD, 0x10FF);
  (0x13A0, 0x13F5); (0x13F8, 0x13FD); (0x1C80, 0x1C88); (0x1C90, 0x1CBA);
  (0x1CBD, 0x1CBF); (0x1D00, 0x1DBF); (0x1E00, 0x1F15); (0x1F18, 0x1F1D);
  (0x1F20, 0x1F45); (0x1F48, 0x1F4D); (0x1F50, 0x1F57); (0x1F59, 0x1F59);
  (0x1F5B, 0x1F5B); (0x1F5D, 0x1F5D); (0x1F5F, 0x1F7D); (0x1F80, 0x1FB4);
  (0x1FB6, 0x1FBC); (0x1FBE, 0x1FBE); (0x1FC2, 0x1FC4); (0x1FC6, 0x1FCC);
  (0x1FD0, 0x1FD3); (0x1FD6, 0x1FDB); (0x1FE0, 0x1FEC); (0x1FF2, 0x1FF4);
  (0x1FF6, 0x1FFC); (0x2071, 0x2071); (0x207F, 0x207F); (0x2090, 0x209C);
  (0x2102, 0x2102); (0x2107, 0x2107); (0x210A, 0x2113); (0x2115, 0x2115);
  (0x2119, 0x211D); (0x2124, 0x2124); (0x2126, 0x2126); (0x2128, 0x2128);
  (0x212A, 0x212D); (0x212F, 0x2134); (0x2139, 0x2139); (0x213C, 0x213F);
  (0x2145, 0x2149); (0x214E, 0x214E); (0x2160, 0x217F); (0x2183, 0x2184);
  (0x24B6, 0x24E9); (0x2C00, 0x2CE4); (0x2CEB, 0x2CEE); (0x2CF2, 0x2CF3);
  (0x2D00, 0x2D25); (0x2D27, 0x2D27); (0x2D2D, 0x2D2D); (0xA640, 0xA66D);
  (0xA680, 0xA69D); (0xA722, 0xA787); (0xA78B, 0xA78E); (0xA790, 0xA7CA);
  (0xA7D0, 0xA7D1); (0xA7D3, 0xA7D3); (0xA7D5, 0xA7D9); (0xA7F5, 0xA7F6);
  (0xA7F8, 0xA7FA); (0xAB30, 0xAB5A); (0xAB5C, 0xAB68); (0xAB70, 0xABBF);
  (0xFB00, 0xFB06); (0xFB13, 0xFB17); (0xFF21, 0xFF3A); (0xFF41, 0xFF5A);
  (0x10400, 0x1044F); (0x104B0, 0x104D3); (0x104D8, 0x104FB); (0x10570, 0x1057A);
  (0x1057C, 0x1058A); (0x1058C, 0x10592); (0x10594, 0x10595); (0x10597, 0x105A1);
  (0x105A3, 0x105B1); (0x105B3, 0x105B9); (0x105BB, 0x105BC); (0x10780, 0x10780);
  (0x10783, 0x10785); (0x10787, 0x107B0); (0x107B2, 0x107BA); (0x10C80, 0x10CB2);
  (0x10CC0, 0x10CF2); (0x118A0, 0x118DF); (0x16E40, 0x16E7F); (0x1D400, 0x1D454);
  (0x1D456, 0x1D49C); (0x1D49E, 0x1D49F); (0x1D4A2, 0x1D4A2); (0x1D4A5, 0x1D4A6);
  (0x1D4A9, 0x1D4AC); (0x1D4AE, 0x1D4B9); (0x1D4BB, 0x1D4BB); (0x1D4BD, 0x1D4C3);
  (0x1D4C5, 0x1D505); (0x1D507, 0x1D50A); (0x1D50D, 0x1D514); (0x1D516, 0x1D51C);
  (0x1D51E, 0x1D539); (0x1D53B, 0x1D53E); (0x1D540, 0x1D544); (0x1D546, 0x1D546);
  (0x1D54A, 0x1D550); (0x1D552, 0x1D6A5); (0x1D6A8, 0x1D6C0); (0x1D6C2, 0x1D6DA);
  (0x1D6DC, 0x1D6FA); (0x1D6FC, 0x1D714); (0x1D716, 0x1D734); (0x1D736, 0x1D74E);
  (0x1D750, 0x1D76E); (0x1D770, 0x1D788); (0x1D78A, 0x1D7A8); (0x1D7AA, 0x1D7C2);
  (0x1D7C4, 0x1D7CB); (0x1DF00, 0x1DF09); (0x1DF0B, 0x1DF1E); (0x1E900, 0x1E943);
  (0x1F130, 0x1F149); (0x1F150, 0x1F169); (0x1F170, 0x1F189)
].

(** The [Case_Ignorable] property, as ranges [(lo, hi)] of code points. *)
Definition case_ignorable_ranges : list (N * N) := [
  (0x27, 0x27); (0x2E, 0x2E); (0x3A, 0x3A); (0x5E, 0x5E);
  (0x60, 0x60); (0xA8, 0xA8); (0xAD, 0xAD); (0xAF, 0xAF);
  (0xB4, 0xB4); (0xB7, 0xB8); (0x2B0, 0x36F); (0x374, 0x375);
  (0x37A, 0x37A); (0x384, 0x385); (0x387, 0x387); (0x483, 0x489);
  (0x559, 0x559); (0x55F, 0x55F); (0x591, 0x5BD); (0x5BF, 0x5BF);
  (0x5C1, 0x5C2); (0x5C4, 0x5C5); (0x5C7, 0x5C7); (0x5F4, 0x5F4);
  (0x600, 0x605); (0x610, 0x61A); (0x61C, 0x61C); (0x640, 0x640);
  (0x64B, 0x65F); (0x670, 0x670); (0x6D6, 0x6DD); (0x6DF, 0x6E8);
  (0x6EA, 0x6ED); (0x70F, 0x70F); (0x711, 0x711); (0x730, 0x74A);
  (0x7A6, 0x7B0); (0x7EB, 0x7F5); (0x7FA, 0x7FA); (0x7FD, 0x7FD);
  (0x816, 0x82D); (0x859, 0x85B); (0x888, 0x888); (0x890, 0x891);
  (0x898, 0x89F); (0x8C9, 0x902); (0x93A, 0x93A); (0x93C, 0x93C);
  (0x941, 0x948); (0x94D, 0x94D); (0x951, 0x957); (0x962, 0x963);
  (0x971, 0x971); (0x981, 0x981); (0x9BC, 0x9BC); (0x9C1, 0x9C4);
  (0x9CD, 0x9CD); (0x9E2, 0x9E3); (0x9FE, 0x9FE); (0xA01, 0xA02);
  (0xA3C, 0xA3C); (0xA41, 0xA42); (0xA47, 0xA48); (0xA4B, 0xA4D);
  (0xA51, 0xA51); (0xA70, 0xA71); (0xA75, 0xA75); (0xA81, 0xA82);
  (0xABC, 0xABC); (0xAC1, 0xAC5); (0xAC7, 0xAC8); (0xACD, 0xACD);
  (0xAE2, 0xAE3); (0xAFA, 0xAFF); (0xB01, 0xB01); (0xB3C, 0xB3C);
  (0xB3F, 0xB3F); (0xB41, 0xB44); (0xB4D, 0xB4D); (0xB55, 0xB56);
  (0xB62, 0xB63); (0xB82, 0xB82); (0xBC0, 0xBC0); (0xBCD, 0xBCD);
  (0xC00, 0xC00); (0xC04, 0xC04); (0xC3C, 0xC3C); (0xC3E, 0xC40);
  (0xC46, 0xC48); (0xC4A, 0xC4D); (0xC55, 0xC56); (0xC62, 0xC63);
  (0xC81, 0xC81); (0xCBC, 0xCBC); (0xCBF, 0xCBF); (0xCC6, 0xCC6);
  (0xCCC, 0xCCD); (0xCE2, 0xCE3); (0xD00, 0xD01); (0xD3B, 0xD3C);
  (0xD41, 0xD44); (0xD4D, 0xD4D); (0xD62, 0xD63); (0xD81, 0xD81);
  (0xDCA, 0xDCA); (0xDD2, 0xDD4); (0xDD6, 0xDD6); (0xE31, 0xE31);
  (0xE34, 0xE3A); (0xE46, 0xE4E); (0xEB1, 0xEB1); (0xEB4, 0xEBC);
  (0xEC6, 0xEC6); (0xEC8, 0xECD); (0xF18, 0xF19); (0xF35, 0xF35);
  (0xF37, 0xF37); (0xF39, 0xF39); (0xF71, 0xF7E); (0xF80, 0xF84);
  (0xF86, 0xF87); (0xF8D, 0xF97); (0xF99, 0xFBC); (0xFC6, 0xFC6);
  (0x102D, 0x1030); (0x1032, 0x1037); (0x1039, 0x103A); (0x103D, 0x103E);
  (0x1058, 0x1059); (0x105E, 0x1060); (0x1071, 0x1074); (0x1082, 0x1082);
  (0x1085, 0x1086); (0x108D, 0x108D); (0x109D, 0x109D); (0x10FC, 0x10FC);
  (0x135D, 0x135F); (0x1712, 0x1714); (0x1732, 0x1733); (0x1752, 0x1753);
  (0x1772, 0x1773); (0x17B4, 0x17B5); (0x17B7, 0x17BD); (0x17C6, 0x17C6);
  (0x17C9, 0x17D3); (0x17D7, 0x17D7); (0x17DD, 0x17DD); (0x180B, 0x180F);
  (0x1843, 0x1843); (0x1885, 0x1886); (0x18A9, 0x18A9); (0x1920, 0x1922);
  (0x1927, 0x1928); (0x1932, 0x1932); (0x1939, 0x193B); (0x1A17, 0x1A18);
  (0x1A1B, 0x1A1B); (0x1A56, 0x1A56); (0x1A58, 0x1A5E); (0x1A60, 0x1A60);
  (0x1A62, 0x1A62); (0x1A65, 0x1A6C); (0x1A73, 0x1A7C); (0x1A7F, 0x1A7F);
  (0x1AA7, 0x1AA7); (0x1AB0, 0x1ACE); (0x1B00, 0x1B03); (0x1B34, 0x1B34);
  (0x1B36, 0x1B3A); (0x1B3C, 0x1B3C); (0x1B42, 0x1B42); (0x1B6B, 0x1B73);
  (0x1B80, 0x1B81); (0x1BA2, 0x1BA5); (0x1BA8, 0x1BA9); (0x1BAB, 0x1BAD);
  (0x1BE6, 0x1BE6); (0x1BE8, 0x1BE9); (0x1BED, 0x1BED); (0x1BEF, 0x1BF1);
  (0x1C2C, 0x1C33); (0x1C36, 0x1C37); (0x1C78, 0x1C7D); (0x1CD0, 0x1CD2);
  (0x1CD4, 0x1CE0); (0x1CE2, 0x1CE8); (0x1CED, 0x1CED); (0x1CF4, 0x1CF4);
  (0x1CF8, 0x1CF9); (0x1D2C, 0x1D6A); (0x1D78, 0x1D78); (0x1D9B, 0x1DFF);
  (0x1FBD, 0x1FBD); (0x1FBF, 0x1FC1); (0x1FCD, 0x1FCF); (0x1FDD, 0x1FDF);
  (0x1FED, 0x1FEF); (0x1FFD, 0x1FFE); (0x200B, 0x200F); (0x2018, 0x2019);
  (0x2024, 0x2024); (0x2027, 0x2027); (0x202A, 0x202E); (0x2060, 0x2064);
  (0x2066, 0x206F); (0x2071, 0x2071); (0x207F, 0x207F); (0x2090, 0x209C);
  (0x20D0, 0x20F0); (0x2C7C, 0x2C7D); (0x2CEF, 0x2CF1); (0x2D6F, 0x2D6F);
  (0x2D7F, 0x2D7F); (0x2DE0, 0x2DFF); (0x2E2F, 0x2E2F); (0x3005, 0x3005);
  (0x302A, 0x302D); (0x3031, 0x3035); (0x303B, 0x303B); (0x3099, 0x309E);
  (0x30FC, 0x30FE); (0xA015, 0xA015); (0xA4F8, 0xA4FD); (0xA60C, 0xA60C);
  (0xA66F, 0xA672); (0xA674, 0xA67D); (0xA67F, 0xA67F); (0xA69C, 0xA69F);
  (0xA6F0, 0xA6F1); (0xA700, 0xA721); (0xA770, 0xA770); (0xA788, 0xA78A);
  (0xA7F2, 0xA7F4); (0xA7F8, 0xA7F9); (0xA802, 0xA802); (0xA806, 0xA806);
  (0xA80B, 0xA80B); (0xA825, 0xA826); (0xA82C, 0xA82C); (0xA8C4, 0xA8C5);
  (0xA8E0, 0xA8F1); (0xA8FF, 0xA8FF); (0xA926, 0xA92D); (0xA947, 0xA951);
  (0xA980, 0xA982); (0xA9B3, 0xA9B3); (0xA9B6, 0xA9B9); (0xA9BC, 0xA9BD);
  (0xA9CF, 0xA9CF); (0xA9E5, 0xA9E6); (0xAA29, 0xAA2E); (0xAA31, 0xAA32);
  (0xAA35, 0xAA36); (0xAA43, 0xAA43); (0xAA4C, 0xAA4C); (0xAA70, 0xAA70);
  (0xAA7C, 0xAA7C); (0xAAB0, 0xAAB0); (0xAAB2, 0xAAB4); (0xAAB7, 0xAAB8);
  (0xAABE, 0xAABF); (0xAAC1, 0xAAC1); (0xAADD, 0xAADD); (0xAAEC, 0xAAED);
  (0xAAF3, 0xAAF4); (0xAAF6, 0xAAF6); (0xAB5B, 0xAB5F); (0xAB69, 0xAB6B);
  (0xABE5, 0xABE5); (0xABE8, 0xABE8); (0xABED, 0xABED); (0xFB1E, 0xFB1E);
  (0xFBB2, 0xFBC2); (0xFE00, 0xFE0F); (0xFE13, 0xFE13); (0xFE20, 0xFE2F);
  (0xFE52, 0xFE52); (0xFE55, 0xFE55); (0xFEFF, 0xFEFF); (0xFF07, 0xFF07);
  (0xFF0E, 0xFF0E); (0xFF1A, 0xFF1A); (0xFF3E, 0xFF3E); (0xFF40, 0xFF40);
  (0xFF70, 0xFF70); (0xFF9E, 0xFF9F); (0xFFE3, 0xFFE3); (0xFFF9, 0xFFFB);
  (0x101FD, 0x101FD); (0x102E0, 0x102E0); (0x10376, 0x1037A); (0x10780, 0x10785);
  (0x10787, 0x107B0); (0x107B2, 0x107BA); (0x10A01, 0x10A03); (0x10A05, 0x10A06);
  (0x10A0C, 0x10A0F); (0x10A38, 0x10A3A); (0x10A3F, 0x10A3F); (0x10AE5, 0x10AE6);
  (0x10D24, 0x10D27); (0x10EAB, 0x10EAC); (0x10F46, 0x10F50); (0x10F82, 0x10F85);
  (0x11001, 0x11001); (0x11038, 0x11046); (0x11070, 0x11070); (0x11073, 0x11074);
  (0x1107F, 0x11081); (0x110B3, 0x110B6); (0x110B9, 0x110BA); (0x110BD, 0x110BD);
  (0x110C2, 0x110C2); (0x110CD, 0x110CD); (0x11100, 0x11102); (0x11127, 0x1112B);
  (0x1112D, 0x11134); (0x11173, 0x11173); (0x11180, 0x11181); (0x111B6, 0x111BE);
  (0x111C9, 0x111CC); (0x111CF, 0x111CF); (0x1122F, 0x11231); (0x11234, 0x11234);
  (0x11236, 0x11237); (0x1123E, 0x1123E); (0x112DF, 0x112DF); (0x112E3, 0x112EA);
  (0x11300, 0x11301); (0x1133B, 0x1133C); (0x11340, 0x11340); (0x11366, 0x1136C);
  (0x11370, 0x11374); (0x11438, 0x1143F); (0x11442, 0x11444); (0x11446, 0x11446);
  (0x1145E, 0x1145E); (0x114B3, 0x114B8); (0x114BA, 0x114BA); (0x114BF, 0x114C0);
  (0x114C2, 0x114C3); (0x115B2, 0x115B5); (0x115BC, 0x115BD); (0x115BF, 0x115C0);
  (0x115DC, 0x115DD); (0x11633, 0x1163A); (0x1163D, 0x1163D); (0x1163F, 0x11640);
  (0x116AB, 0x116AB); (0x116AD, 0x116AD); (0x116B0, 0x116B5); (0x116B7, 0x116B7);
  (0x1171D, 0x1171F); (0x11722, 0x11725); (0x11727, 0x1172B); (0x1182F, 0x11837);
  (0x11839, 0x1183A); (0x1193B, 0x1193C); (0x1193E, 0x1193E); (0x11943, 0x11943);
  (0x119D4, 0x119D7); (0x119DA, 0x119DB); (0x119E0, 0x119E0); (0x11A01, 0x11A0A);
  (0x11A33, 0x11A38); (0x11A3B, 0x11A3E); (0x11A47, 0x11A47); (0x11A51, 0x11A56);
  (0x11A59, 0x11A5B); (0x11A8A, 0x11A96); (0x11A98, 0x11A99); (0x11C30, 0x11C36);
  (0x11C38, 0x11C3D); (0x11C3F, 0x11C3F); (0x11C92, 0x11CA7); (0x11CAA, 0x11CB0);
  (0x11CB2, 0x11CB3); (0x11CB5, 0x11CB6); (0x11D31, 0x11D36); (0x11D3A, 0x11D3A);
  (0x11D3C, 0x11D3D); (0x11D3F, 0x11D45); (0x11D47, 0x11D47); (0x11D90, 0x11D91);
  (0x11D95, 0x11D95); (0x11D97, 0x11D97); (0x11EF3, 0x11EF4); (0x13430, 0x13438);
  (0x16AF0, 0x16AF4); (0x16B30, 0x16B36); (0x16B40, 0x16B43); (0x16F4F, 0x16F4F);
  (0x16F8F, 0x16F9F); (0x16FE0, 0x16FE1); (0x16FE3, 0x16FE4); (0x1AFF0, 0x1AFF3);
  (0x1AFF5, 0x1AFFB); (0x1AFFD, 0x1AFFE); (0x1BC9D, 0x1BC9E); (0x1BCA0, 0x1BCA3);
  (0x1CF00, 0x1CF2D); (0x1CF30, 0x1CF46); (0x1D167, 0x1D169); (0x1D173, 0x1D182);
  (0x1D185, 0x1D18B); (0x1D1AA, 0x1D1AD); (0x1D242, 0x1D244); (0x1DA00, 0x1DA36);
  (0x1DA3B, 0x1DA6C); (0x1DA75, 0x1DA75); (0x1DA84, 0x1DA84); (0x1DA9B, 0x1DA9F);
  (0x1DAA1, 0x1DAAF); (0x1E000, 0x1E006); (0x1E008, 0x1E018); (0x1E01B, 0x1E021);
  (0x1E023, 0x1E024); (0x1E026, 0x1E02A); (0x1E130, 0x1E13D); (0x1E2AE, 0x1E2AE);
  (0x1E2EC, 0x1E2EF); (0x1E8D0, 0x1E8D6); (0x1E944, 0x1E94B); (0x1F3FB, 0x1F3FF);
  (0xE0001, 0xE0001); (0xE0020, 0xE007F); (0xE0100, 0xE01EF)
].

(** Membership in a list of ranges. *)
Definition in_ranges (rs : list (N * N)) (c : N) : bool :=
  existsb (fun '(lo, hi) => (lo <=? c) && (c <=? hi)) rs.

(** [_PyUnicode_IsCased]. *)
Definition is_cased (c : N) : bool := in_ranges cased_ranges c.

(** [_PyUnicode_IsCaseIgnorable]. *)
Definition is_case_ignorable (c : N) : bool := in_ranges case_ignorable_ranges c.

(** Lookup in the table of simple lowercase mappings. *)
Fixpoint table_lookup (t : list (N * N)) (c : N) : option N :=
  match t with
  | [] => None
  | (k, v) :: t' => if k =? c then Some v else table_lookup t' c
  end.

(** [_PyUnicode_ToLowerFull]: the full lowercase mapping of one code point. *)
Definition to_lower_full (c : N) : list N :=
  if c =? 0x130 then [0x69; 0x307]
  else match table_lookup lower_table c with
       | Some l => [l]
       | None => [c]
       end.

(** The first code point of [l] that is not case-ignorable. *)
Fixpoint first_not_ignorable (l : list N) : option N :=
  match l with
  | [] => None
  | c :: l' => if is_case_ignorable c then first_not_ignorable l' else Some c
  end.

(** [handle_capital_sigma]: U+03A3 at a position whose preceding code
    points, nearest first, are [before] and whose following code points are
    [after] lowers to the final sigma U+03C2 when it is preceded by a cased
    letter and not followed by one (case-ignorable code points skipped),
    and to U+03C3 otherwise. *)
Definition handle_capital_sigma (before after : list N) : N :=
  let final_sigma :=
    match first_not_ignorable before with
    | Some c => is_cased c
    | None => false
    end in
  let final_sigma :=
    if final_sigma && negb (match after with [] => true | _ => false end)
    then match first_not_ignorable after with
         | None => true
         | Some c => negb (is_cased c)
         end
    else final_sigma in
  if final_sigma then 0x3C2 else 0x3C3.

(** [lower_ucs4]. *)
Definition lower_ucs4 (before : list N) (c : N) (after : list N) : list N :=
  if c =? 0x3A3 then [handle_capital_sigma before after]
  else to_lower_full c.

(** [do_lower]: every code point is lowered in the context of the original
    string; [before] holds the code points already read, nearest first. *)
Fixpoint do_lower (before : list N) (s : list N) : list N :=
  match s with
  | [] => []
  | c :: s' => app (lower_ucs4 before c s') (do_lower (c :: before) s')
  end.

(** A UTF-8 continuation byte. *)
Definition is_cont (b : N) : bool := (0x80 <=? b) && (b <=? 0xBF).

(** A Unicode scalar value: at most U+10FFFF and not a surrogate. *)
Definition is_scalar (c : N) : bool :=
  (c <=? 0x10FFFF) && negb ((0xD800 <=? c) && (c <=? 0xDFFF)).

(** Strict UTF-8 decoding: [None] on an ill-formed sequence (overlong
    forms, surrogates and values above U+10FFFF included). *)
Fixpoint utf8_decode (s : string) : option (list N) :=
  match s with
  | EmptyString => Some []
  | String c0 s0 =>
    let b0 := N_of_ascii c0 in
    if b0 <? 0x80 then option_map (cons b0) (utf8_decode s0)
    else if (0xC2 <=? b0) && (b0 <=? 0xDF) then
      match s0 with
      | String c1 s1 =>
        let b1 := N_of_ascii c1 in
        if is_cont b1
        then option_map (cons ((b0 - 0xC0) * 64 + (b1 - 0x80))) (utf8_decode s1)
        else None
      | EmptyString => None
      end
    else if (0xE0 <=? b0) && (b0 <=? 0xEF) then
      match s0 with
      | String c1 (String c2 s2) =>
        let b1 := N_of_ascii c1 in
        let b2 := N_of_ascii c2 in
        let cp := (b0 - 0xE0) * 4096 + (b1 - 0x80) * 64 + (b2 - 0x80) in
        if is_cont b1 && is_cont b2 && (0x800 <=? cp) && is_scalar cp
        then option_map (cons cp) (utf8_decode s2)
        else None
      | _ => None
      end
    else if (0xF0 <=? b0) && (b0 <=? 0xF4) then
      match s0 with
      | String c1 (String c2 (String c3 s3)) =>
        let b1 := N_of_ascii c1 in
        let b2 := N_of_ascii c2 in
        let b3 := N_of_ascii c3 in
        let cp := (b0 - 0xF0) * 262144 + (b1 - 0x80) * 4096
                  + (b2 - 0x80) * 64 + (b3 - 0x80) in
        if is_cont b1 && is_cont b2 && is_cont b3
           && (0x10000 <=? cp) && (cp <=? 0x10FFFF)
        then option_map (cons cp) (utf8_decode s3)
        else None
      | _ => None
      end
    else None
  end.

(** UTF-8 encoding of one code point. *)
Definition utf8_encode_cp (c : N) : string :=
  if c <? 0x80 then String (ascii_of_N c) EmptyString
  else if c <? 0x800 then
    String (ascii_of_N (0xC0 + c / 64))
      (String (ascii_of_N (0x80 + c mod 64)) EmptyString)
  else if c <? 0x10000 then
    String (ascii_of_N (0xE0 + c / 4096))
      (String (ascii_of_N (0x80 + (c / 64) mod 64))
        (String (ascii_of_N (0x80 + c mod 64)) EmptyString))
  else
    String (ascii_of_N (0xF0 + c / 262144))
      (String (ascii_of_N (0x80 + (c / 4096) mod 64))
        (String (ascii_of_N (0x80 + (c / 64) mod 64))
          (String (ascii_of_N (0x80 + c mod 64)) EmptyString))).

Fixpoint utf8_encode (l : list N) : string :=
  match l with
  | [] => EmptyString
  | c :: l' => String.append (utf8_encode_cp c) (utf8_encode l')
  end.

(** A code point that [str.lower] leaves as it is, whatever its context. *)
Definition fixed (c : N) : bool :=
  negb (c =? 0x3A3) && negb (c =? 0x130)
  && match table_lookup lower_table c with None => true | Some _ => false end.

End Unicode.

(** [str.lower]: the string is decoded from UTF-8, every code point is
    lowered as CPython's [lower_ucs4] does (full lowercase mapping, final
    sigma in context) and the result is encoded again.  A byte sequence that
    is not well-formed UTF-8, which encodes no Python [str], is left as it
    is. *)
Definition lower (s : string) : string :=
  match Unicode.utf8_decode s with
  | Some cps => Unicode.utf8_encode (Unicode.do_lower [] cps)
  | None => s
  end.

(** Python [sub in s] for two strings: [sub] occurs at some position of [s]
    (the empty string occurs everywhere). *)
Fixpoint str_contains (s sub : string) : bool :=
  prefix sub s ||
  match s with
  | EmptyString => false
  | String _ s' => str_contains s' sub
  end.

(** Python [x in st] for a set of strings. *)
Definition set_mem (st : list string) (x : string) : bool :=
  existsb (String.eqb x) st.

(** ** The notebook's globals *)

(** [punctuations = string.punctuation]. *)
Definition punctuations : string :=
  String "!" (String (ascii_of_nat 34) "#$%&'()*+,-./:;<=>?@[\]^_`{|}~").

(** [stop_words = nlp.Defaults.stop_words]: the 326 words of spaCy's English
    stop list, as the notebook prints them. *)
Definition stop_words : list string := [
  "if"; "behind"; "about"; "rather"; "’s"; "after"; "whether"; "anything";
  "’m"; "as"; "five"; "anyway"; "per"; "my"; "most"; "still"; "whose";
  "should"; "have"; "unless"; "they"; "has"; "‘s"; "once"; "'m"; "no";
  "up"; "elsewhere"; "of"; "at"; "any"; "so"; "throughout"; "together";
  "everywhere"; "ca"; "these"; "hundred"; "four"; "yours"; "whom"; "both";
  "in"; "front"; "others"; "somehow"; "eleven"; "could"; "would"; "became";
  "very"; "do"; "‘m"; "last"; "nobody"; "used"; "formerly"; "meanwhile";
  "why"; "whenever"; "amongst"; "down"; "often"; "besides"; "two"; "go";
  "ten"; "from"; "whereas"; "moreover"; "n't"; "whole"; "many"; "them";
  "sometime"; "anywhere"; "else"; "such"; "make"; "becoming"; "thru";
  "among"; "into"; "indeed"; "itself"; "the"; "latterly"; "otherwise";
  "that"; "themselves"; "also"; "its"; "various"; "did"; "hereafter";
  "some"; "whither"; "me"; "really"; "on"; "however"; "anyhow"; "all";
  "re"; "move"; "never"; "fifty"; "he"; "above"; "thereafter"; "out";
  "which"; "was"; "keep"; "here"; "get"; "one"; "hers"; "when"; "although";
  "her"; "doing"; "may"; "forty"; "without"; "nor"; "give"; "our"; "we";
  "sometimes"; "via"; "namely"; "'s"; "always"; "are"; "least"; "were";
  "onto"; "been"; "it"; "neither"; "same"; "first"; "name"; "seems";
  "what"; "several"; "latter"; "ever"; "full"; "upon"; "now"; "within";
  "while"; "beyond"; "fifteen"; "less"; "'re"; "whoever"; "or"; "but";
  "yourself"; "below"; "'d"; "wherever"; "anyone"; "not"; "beside";
  "empty"; "cannot"; "take"; "twenty"; "become"; "afterwards"; "each";
  "quite"; "himself"; "toward"; "hereby"; "next"; "‘d"; "across"; "am";
  "every"; "much"; "amount"; "more"; "serious"; "eight"; "your"; "'ve";
  "another"; "everyone"; "third"; "for"; "‘ve"; "thereupon"; "again";
  "n‘t"; "where"; "nevertheless"; "an"; "seeming"; "yourselves"; "who";
  "she"; "call"; "using"; "whereupon"; "’ll"; "sixty"; "therefore";
  "whatever"; "just"; "mine"; "thereby"; "yet"; "n’t"; "due"; "myself";
  "under"; "something"; "had"; "since"; "his"; "ours"; "might"; "therein";
  "back"; "off"; "will"; "though"; "enough"; "whereby"; "you"; "becomes";
  "‘ll"; "can"; "somewhere"; "this"; "whereafter"; "further"; "own"; "’re";
  "six"; "regarding"; "i"; "only"; "nothing"; "twelve"; "before"; "see";
  "nine"; "top"; "either"; "until"; "nowhere"; "to"; "put"; "other";
  "between"; "well"; "seem"; "wherein"; "hence"; "us"; "herself"; "except";
  "and"; "someone"; "’d"; "hereupon"; "almost"; "none"; "those";
  "ourselves"; "‘re"; "be"; "part"; "too"; "does"; "him"; "thence";
  "former"; "'ll"; "seemed"; "there"; "thus"; "how"; "then"; "along"; "is";
  "made"; "over"; "side"; "beforehand"; "mostly"; "must"; "please";
  "around"; "perhaps"; "because"; "than"; "three"; "even"; "say";
  "against"; "during"; "bottom"; "’ve"; "herein"; "everything"; "noone";
  "a"; "alone"; "being"; "whence"; "already"; "their"; "with"; "by";
  "done"; "few"; "show"; "towards"; "through"
].

(** ** The custom tokenizer *)

(** A token of the spaCy [Doc]: its surface text and its lemma. *)
Record Token := mkToken { text : string; lemma_ : string }.

(** The language pipeline [nlp]: sentence to tokens. *)
Definition Pipeline := string -> list Token.

(** [spacy_tokenizer(sentence)]. *)
Definition spacy_tokenizer (nlp : Pipeline) (sentence : string) : list string :=
  let doc := nlp sentence in
  let mytokens := map (fun word => lower (lemma_ word)) doc in
  filter (fun token => negb (set_mem stop_words token)
                       && negb (str_contains punctuations token)) mytokens.

(** ** [CountVectorizer(tokenizer=spacy_tokenizer)] (scikit-learn)

    With the default parameters ([lowercase=True], [ngram_range=(1,1)],
    [stop_words=None], [min_df=1], [max_df=1.0]) the analyzer lower-cases
    the document and hands it to the tokenizer; [fit_transform] counts the
    features in first-seen order ([_count_vocab]), then renumbers the
    columns in sorted term order ([_sort_features]). *)
Module CountVectorizer.

(** [vocabulary]: a dict from term to column, in insertion order. *)
Definition vocab := list (string * nat).

Fixpoint vocab_index (v : vocab) (t : string) : option nat :=
  match v with
  | [] => None
  | (t', i) :: v' => if String.eqb t t' then Some i else vocab_index v' t
  end.

(** [vocabulary[feature]] with [default_factory = vocabulary.__len__]. *)
Definition vocab_get (v : vocab) (t : string) : vocab * nat :=
  match vocab_index v t with
  | Some i => (v, i)
  | None => (app v [(t, List.length v)], List.length v)
  end.

(** [feature_counter]: a dict from column to count. *)
Definition counter := list (nat * nat).

Fixpoint counter_get (c : counter) (k : nat) : nat :=
  match c with
  | [] => 0
  | (k', n) :: c' => if Nat.eqb k k' then n else counter_get c' k
  end.

Fixpoint counter_incr (c : counter) (k : nat) : counter :=
  match c with
  | [] => [(k, 1)]
  | (k', n) :: c' =>
      if Nat.eqb k k' then (k', S n) :: c' else (k', n) :: counter_incr c' k
  end.

(** The inner loop of [_count_vocab] over the features of one document. *)
Fixpoint count_doc (v : vocab) (c : counter) (feats : list string)
  : vocab * counter :=
  match feats with
  | [] => (v, c)
  | f :: fs =>
      let (v', idx) := vocab_get v f in
      count_doc v' (counter_incr c idx) fs
  end.

(** [_count_vocab]: the vocabulary and one counter per document. *)
Fixpoint count_vocab (analyze : string -> list string) (v : vocab)
  (docs : list string) : vocab * list counter :=
  match docs with
  | [] => (v, [])
  | d :: ds =>
      let (v', c) := count_doc v [] (analyze d) in
      let (v'', cs) := count_vocab analyze v' ds in
      (v'', c :: cs)
  end.

(** [build_analyzer()] for a custom tokenizer: [tokenizer(doc.lower())]. *)
Definition analyzer (tokenizer : string -> list string) (doc : string)
  : list string :=
  tokenizer (lower doc).

(** Row [j] of [X.toarray()] before the columns are renumbered. *)
Definition dense_row (n : nat) (c : counter) : list nat :=
  map (counter_get c) (seq 0 n).

(** [sorted(vocabulary.items())]: insertion sort on the (unique) terms. *)
Fixpoint insert_item (x : string * nat) (l : list (string * nat))
  : list (string * nat) :=
  match l with
  | [] => [x]
  | y :: l' => if String.ltb (fst x) (fst y) then x :: l
               else y :: insert_item x l'
  end.

Fixpoint sort_items (l : list (string * nat)) : list (string * nat) :=
  match l with
  | [] => []
  | x :: l' => insert_item x (sort_items l')
  end.

(** New column of a term: its position in the sorted items. *)
Fixpoint position (t : string) (l : list (string * nat)) : nat :=
  match l with
  | [] => 0
  | (t', _) :: l' => if String.eqb t t' then 0 else S (position t l')
  end.

(** The fitted state and the result of [fit_transform(raw_documents)]. *)
Record fitted := mkFitted {
  vocabulary_ : vocab;              (** [cv.vocabulary_] *)
  feature_names_out : list string;  (** [cv.get_feature_names_out()] *)
  matrix : list (list nat)          (** [cv.fit_transform(...).toarray()] *)
}.

(** [_sort_features]: [vocabulary[term] = new_val] in place, and
    [X[:, map_index]]. *)
Definition fit_transform (tokenizer : string -> list string)
  (raw_documents : list string) : fitted :=
  let (v, cs) := count_vocab (analyzer tokenizer) [] raw_documents in
  let rows := map (dense_row (List.length v)) cs in
  let sorted := sort_items v in
  let map_index := map snd sorted in
  mkFitted (map (fun '(t, _) => (t, position t sorted)) v)
           (map fst sorted)
           (map (fun r => map (fun old => nth old r 0) map_index) rows).

(** [fit(raw_documents)] and [fit_transform(raw_documents)]: [_count_vocab]
    raises [ValueError("empty vocabulary; perhaps the documents only contain
    stop words")] when no document yields a feature ([None] here); with
    [min_df=1] and [max_df=1.0], [_limit_features] keeps every term. *)
Definition fit_transform_checked (tokenizer : string -> list string)
  (raw_documents : list string) : option fitted :=
  let (v, _) := count_vocab (analyzer tokenizer) [] raw_documents in
  match v with
  | [] => None
  | _ :: _ => Some (fit_transform tokenizer raw_documents)
  end.

(** [_count_vocab(raw_documents, fixed_vocab=True)] for one document: a
    feature missing from the vocabulary raises [KeyError], which is caught
    and skipped. *)
Fixpoint count_doc_fixed (vocabulary : vocab) (c : counter) (feats : list string)
  : counter :=
  match feats with
  | [] => c
  | f :: fs =>
      match vocab_index vocabulary f with
      | Some idx => count_doc_fixed vocabulary (counter_incr c idx) fs
      | None => count_doc_fixed vocabulary c fs
      end
  end.

(** [cv.transform(raw_documents).toarray()] with the fitted [vocabulary_];
    the matrix has [len(vocabulary_)] columns. *)
Definition transform (cv : fitted) (tokenizer : string -> list string)
  (raw_documents : list string) : list (list nat) :=
  map (fun d => dense_row (List.length (vocabulary_ cv))
                  (count_doc_fixed (vocabulary_ cv) [] (analyzer tokenizer d)))
      raw_documents.

End CountVectorizer.

(** [sentences = ["I am eating apple, I like apple","I am playing cricket"]]. *)
Definition sentences : list string :=
  ["I am eating apple, I like apple"; "I am playing cricket"].

(** ** [metrics.precision_score], [recall_score], [f1_score] (scikit-learn)

    Called with the defaults [pos_label=1], [average='binary'],
    [zero_division='warn'].  Labels are booleans ([true] is the positive
    class 1).  [check_consistent_length] raises on sequences of different
    lengths; [_prf_divide] replaces a quotient with zero denominator by the
    zero-division value, [0.0] for ['warn'], and emits a warning. *)
Module Metrics.

Inductive outcome :=
| Value (q : Q) (warned : bool)
| Raise (msg : string).

(** The entries of the multilabel confusion matrix for the class 1. *)
Fixpoint tp_sum (y_true y_pred : list bool) : nat :=
  match y_true, y_pred with
  | t :: ts, p :: ps => (if t && p then 1 else 0) + tp_sum ts ps
  | _, _ => 0
  end.

Fixpoint pred_sum (y_pred : list bool) : nat :=
  match y_pred with
  | p :: ps => (if p then 1 else 0) + pred_sum ps
  | [] => 0
  end.

Definition true_sum (y_true : list bool) : nat := pred_sum y_true.

Definition zero_division_value : Q := 0.

Definition prf_divide (numerator denominator : nat) : outcome :=
  if Nat.eqb denominator 0 then Value zero_division_value true
  else Value (inject_Z (Z.of_nat numerator) / inject_Z (Z.of_nat denominator))%Q
             false.

Definition check_consistent_length (y_true y_pred : list bool) : bool :=
  Nat.eqb (List.length y_true) (List.length y_pred).

Definition precision_score (y_true y_pred : list bool) : outcome :=
  if check_consistent_length y_true y_pred
  then prf_divide (tp_sum y_true y_pred) (pred_sum y_pred)
  else Raise "Found input variables with inconsistent numbers of samples".

Definition recall_score (y_true y_pred : list bool) : outcome :=
  if check_consistent_length y_true y_pred
  then prf_divide (tp_sum y_true y_pred) (true_sum y_true)
  else Raise "Found input variables with inconsistent numbers of samples".

(** [beta = 1]: [(1 + beta2) * tp_sum / (beta2 * true_sum + pred_sum)]. *)
Definition f1_score (y_true y_pred : list bool) : outcome :=
  if check_consistent_length y_true y_pred
  then prf_divide (2 * tp_sum y_true y_pred)
                  (true_sum y_true + pred_sum y_pred)
  else Raise "Found input variables with inconsistent numbers of samples".

(** [accuracy_score(y_true, y_pred)] with [normalize=True]: the mean of
    [y_true == y_pred]; [np.average] of an empty array is [nan]. *)
Inductive accuracy_outcome :=
| Accuracy (q : Q)
| AccuracyNaN
| AccuracyRaise (msg : string).

Fixpoint correct_sum (y_true y_pred : list bool) : nat :=
  match y_true, y_pred with
  | t :: ts, p :: ps => (if Bool.eqb t p then 1 else 0) + correct_sum ts ps
  | _, _ => 0
  end.

Definition accuracy_score (y_true y_pred : list bool) : accuracy_outcome :=
  if check_consistent_length y_true y_pred
  then match List.length y_true with
       | 0 => AccuracyNaN
       | n => Accuracy (inject_Z (Z.of_nat (correct_sum y_true y_pred))
                        / inject_Z (Z.of_nat n))%Q
       end
  else AccuracyRaise "Found input variables with inconsistent numbers of samples".

Definition is_value (o : outcome) : bool :=
  match o with Value _ _ => true | Raise _ => false end.

End Metrics.

(** ** Vocabulary of the statements *)

(** The normalized form of a token: [word.lemma_.lower()]. *)
Definition lemma_lower (word : Token) : string := lower (lemma_ word).

(** [sub] is a contiguous substring of [s]. *)
Definition substring_of (sub s : string) : Prop :=
  exists p q, s = p ++ sub ++ q.

(** A non-empty string made of characters of [string.punctuation] only. *)
Fixpoint punct_only_chars (s : string) : bool :=
  match s with
  | EmptyString => true
  | String c s' => str_contains punctuations (String c EmptyString)
                   && punct_only_chars s'
  end.

Definition punct_only (s : string) : bool :=
  negb (String.eqb s EmptyString) && punct_only_chars s.

(** [l1] is a subsequence of [l2]. *)
Inductive subseq {A : Type} : list A -> list A -> Prop :=
| subseq_nil : subseq [] []
| subseq_keep x l1 l2 : subseq l1 l2 -> subseq (x :: l1) (x :: l2)
| subseq_skip x l1 l2 : subseq l1 l2 -> subseq l1 (x :: l2).

(** The pipeline whose [Doc] is made of tokens with the given lemmas. *)
Definition doc_of_lemmas (ls : list string) : list Token :=
  map (fun l => mkToken l l) ls.

(** ** Vocabulary of the vectorizer and metrics proofs *)

(** Number of features of [feats] whose column in [v] is [k]. *)
Definition hits (v : CountVectorizer.vocab) (k : nat) (feats : list string) : nat :=
  List.length (filter (fun f => match CountVectorizer.vocab_index v f with
                                | Some j => Nat.eqb j k
                                | None => false
                                end) feats).

(** The invariant of [_count_vocab]: columns [0 .. n-1] in insertion order,
    distinct terms. *)
Definition vocab_wf (v : CountVectorizer.vocab) : Prop :=
  map snd v = seq 0 (List.length v) /\ NoDup (map fst v).

Definition key_le (p q : string * nat) : Prop := String.leb (fst p) (fst q) = true.

Fixpoint position_list (t : string) (l : list string) : nat :=
  match l with
  | [] => 0
  | t' :: l' => if String.eqb t t' then 0 else S (position_list t l')
  end.

(** ** General lemmas *)

Module UnicodeFacts.
Import Unicode.
Local Open Scope N_scope.

Ltac N_tests :=
  repeat (first
    [ match goal with
      | |- context [N.ltb ?x ?y] => destruct (N.ltb_spec x y); try (exfalso; lia)
      end
    | match goal with
      | |- context [N.leb ?x ?y] => destruct (N.leb_spec x y); try (exfalso; lia)
      end ]; cbn [andb negb orb]).

Lemma is_scalar_spec (c : N) :
  is_scalar c = true <-> c <= 0x10FFFF /\ ~ (0xD800 <= c /\ c <= 0xDFFF).
Proof.
  unfold is_scalar; rewrite andb_true_iff, negb_true_iff, andb_false_iff,
    N.leb_le, !N.leb_gt; lia.
Qed.

Lemma decode_step1 (b0 : N) (s : string) :
  b0 < 0x80 ->
  utf8_decode (String (ascii_of_N b0) s) = option_map (cons b0) (utf8_decode s).
Proof.
  intros H; cbn [utf8_decode]; rewrite N_ascii_embedding by lia.
  N_tests; reflexivity.
Qed.

Lemma decode_step2 (q r : N) (s : string) :
  2 <= q -> q < 32 -> r < 64 ->
  utf8_decode (String (ascii_of_N (0xC0 + q)) (String (ascii_of_N (0x80 + r)) s))
  = option_map (cons (q * 64 + r)) (utf8_decode s).
Proof.
  intros Hq1 Hq2 Hr; cbn [utf8_decode]; rewrite !N_ascii_embedding by lia.
  unfold is_cont; N_tests.
  all: do 2 f_equal; lia.
Qed.

Lemma decode_step3 (q r1 r0 : N) (s : string) :
  q < 16 -> r1 < 64 -> r0 < 64 ->
  let c := q * 4096 + r1 * 64 + r0 in
  0x800 <= c -> is_scalar c = true ->
  utf8_decode (String (ascii_of_N (0xE0 + q))
                 (String (ascii_of_N (0x80 + r1)) (String (ascii_of_N (0x80 + r0)) s)))
  = option_map (cons c) (utf8_decode s).
Proof.
  intros Hq Hr1 Hr0 c Hc Hs; subst c; apply is_scalar_spec in Hs.
  cbn [utf8_decode]; rewrite !N_ascii_embedding by lia.
  unfold is_cont, is_scalar; N_tests.
  all: do 2 f_equal; lia.
Qed.

Lemma decode_step4 (q r2 r1 r0 : N) (s : string) :
  r2 < 64 -> r1 < 64 -> r0 < 64 ->
  let c := q * 262144 + r2 * 4096 + r1 * 64 + r0 in
  0x10000 <= c -> c <= 0x10FFFF ->
  utf8_decode (String (ascii_of_N (0xF0 + q))
                 (String (ascii_of_N (0x80 + r2))
                   (String (ascii_of_N (0x80 + r1)) (String (ascii_of_N (0x80 + r0)) s))))
  = option_map (cons c) (utf8_decode s).
Proof.
  intros Hr2 Hr1 Hr0 c Hc1 Hc2; subst c.
  cbn [utf8_decode]; rewrite !N_ascii_embedding by lia.
  unfold is_cont; N_tests.
  all: do 2 f_equal; lia.
Qed.

Lemma decode_encode_cp (c : N) (s : string) :
  is_scalar c = true ->
  utf8_decode (String.append (utf8_encode_cp c) s)
  = option_map (cons c) (utf8_decode s).
Proof.
  intros Hs; pose proof (proj1 (is_scalar_spec c) Hs) as Hc.
  pose proof (N.div_mod c 64 ltac:(lia)) as E1.
  pose proof (N.mod_lt c 64 ltac:(lia)) as B1.
  pose proof (N.div_mod (c / 64) 64 ltac:(lia)) as E2.
  pose proof (N.mod_lt (c / 64) 64 ltac:(lia)) as B2.
  pose proof (N.div_mod (c / 64 / 64) 64 ltac:(lia)) as E3.
  pose proof (N.mod_lt (c / 64 / 64) 64 ltac:(lia)) as B3.
  assert (D2 : c / 4096 = c / 64 / 64) by (rewrite N.Div0.div_div; reflexivity).
  assert (D3 : c / 262144 = c / 64 / 64 / 64) by (rewrite !N.Div0.div_div; reflexivity).
  unfold utf8_encode_cp; rewrite D2, D3.
  generalize dependent (c / 64 / 64 / 64); generalize dependent (c / 64 / 64 mod 64);
    generalize dependent (c / 64 / 64); generalize dependent (c / 64 mod 64);
    generalize dependent (c mod 64); generalize dependent (c / 64).
  intros.
  destruct (N.ltb_spec c 0x80); [apply decode_step1; lia|].
  destruct (N.ltb_spec c 0x800); cbn [String.append]; [rewrite decode_step2 by lia; do 2 f_equal; lia|].
  destruct (N.ltb_spec c 0x10000); cbn [String.append].
  - rewrite decode_step3; [do 2 f_equal; lia | lia | lia | lia | lia |].
    apply is_scalar_spec; lia.
  - rewrite decode_step4; [do 2 f_equal; lia | lia | lia | lia | lia | lia].
Qed.

Ltac bool_hyps :=
  repeat match goal with
  | H : (_ && _) = true |- _ => apply andb_true_iff in H; destruct H
  | H : negb _ = true |- _ => apply negb_true_iff in H
  | H : (_ && _) = false |- _ => apply andb_false_iff in H; destruct H
  | H : (_ <? _) = true |- _ => apply N.ltb_lt in H
  | H : (_ <? _) = false |- _ => apply N.ltb_ge in H
  | H : (_ <=? _) = true |- _ => apply N.leb_le in H
  | H : (_ <=? _) = false |- _ => apply N.leb_gt in H
  end.

Lemma decode_encode (l : list N) :
  Forall (fun c => is_scalar c = true) l -> utf8_decode (utf8_encode l) = Some l.
Proof.
  induction 1 as [|c l Hc _ IH]; [reflexivity|].
  cbn [utf8_encode]; rewrite decode_encode_cp, IH by exact Hc; reflexivity.
Qed.

Lemma decode_scalar_aux (n : nat) :
  forall s l, (String.length s <= n)%nat -> utf8_decode s = Some l ->
  Forall (fun c => is_scalar c = true) l.
Proof.
  induction n as [|n IH]; intros [|c0 s0] l Hlen Hdec.
  - injection Hdec as <-; constructor.
  - cbn [String.length] in Hlen; lia.
  - injection Hdec as <-; constructor.
  - cbn [String.length] in Hlen; cbn [utf8_decode] in Hdec.
    unfold is_cont, is_scalar in Hdec.
    repeat (discriminate ||
      match type of Hdec with
      | context [if ?b then _ else _] => destruct b eqn:?
      | context [match ?s with EmptyString => _ | String _ _ => _ end] => destruct s
      end).
    all: match type of Hdec with
         | option_map _ (utf8_decode ?s') = _ =>
           destruct (utf8_decode s') eqn:Ed; [injection Hdec as <-|discriminate];
           constructor; [|apply (IH s'); [cbn [String.length] in Hlen |]; auto; lia]
         end.
    all: bool_hyps; apply is_scalar_spec; lia.
Qed.

Lemma decode_scalar (s : string) (l : list N) :
  utf8_decode s = Some l -> Forall (fun c => is_scalar c = true) l.
Proof. apply (decode_scalar_aux (String.length s)); lia. Qed.

Lemma table_lookup_In (t : list (N * N)) (c v : N) :
  table_lookup t c = Some v -> In (c, v) t.
Proof.
  induction t as [|[k w] t IH]; cbn [table_lookup]; [discriminate|].
  destruct (N.eqb_spec k c) as [->|_]; [injection 1 as ->; left; reflexivity|].
  intros H; right; apply IH, H.
Qed.

Lemma lower_table_targets :
  forallb (fun '(_, v) => fixed v && is_scalar v) lower_table = true.
Proof. vm_compute; reflexivity. Qed.

Lemma handle_capital_sigma_cases (before after : list N) :
  handle_capital_sigma before after = 0x3C2 \/ handle_capital_sigma before after = 0x3C3.
Proof.
  unfold handle_capital_sigma;
  match goal with |- context [if ?b then 0x3C2 else 0x3C3] => destruct b end; auto.
Qed.

Lemma lower_ucs4_out (before : list N) (c : N) (after : list N) :
  is_scalar c = true ->
  Forall (fun x => fixed x && is_scalar x = true) (lower_ucs4 before c after).
Proof.
  intros Hc; unfold lower_ucs4.
  destruct (N.eqb c 0x3A3) eqn:Es.
  { destruct (handle_capital_sigma_cases before after) as [-> | ->];
      repeat constructor. }
  unfold to_lower_full; destruct (N.eqb c 0x130) eqn:Ei; [repeat constructor|].
  destruct (table_lookup lower_table c) as [v|] eqn:Ev.
  - apply table_lookup_In in Ev; pose proof lower_table_targets as Ht.
    rewrite forallb_forall in Ht; apply Ht in Ev; repeat constructor; exact Ev.
  - repeat constructor; unfold fixed; rewrite Es, Ei, Ev, Hc; reflexivity.
Qed.

Lemma lower_ucs4_fixed (before : list N) (c : N) (after : list N) :
  fixed c = true -> lower_ucs4 before c after = [c].
Proof.
  unfold fixed, lower_ucs4, to_lower_full; intros H.
  apply andb_true_iff in H as [H H3]; apply andb_true_iff in H as [H1 H2].
  apply negb_true_iff in H1, H2; rewrite H1, H2.
  destruct (table_lookup lower_table c); [discriminate | reflexivity].
Qed.

Lemma do_lower_out (before l : list N) :
  Forall (fun c => is_scalar c = true) l ->
  Forall (fun x => fixed x && is_scalar x = true) (do_lower before l).
Proof.
  intros Hl; revert before; induction Hl as [|c l Hc _ IH]; intros before;
    cbn [do_lower]; [constructor|].
  apply Forall_app; split; [apply lower_ucs4_out, Hc | apply IH].
Qed.

Lemma do_lower_fixed (before l : list N) :
  Forall (fun c => fixed c = true) l -> do_lower before l = l.
Proof.
  intros Hl; revert before; induction Hl as [|c l Hc _ IH]; intros before;
    cbn [do_lower]; [reflexivity|].
  rewrite lower_ucs4_fixed, IH by exact Hc; reflexivity.
Qed.

End UnicodeFacts.

Lemma lower_idem (s : string) : lower (lower s) = lower s.
Proof.
  unfold lower; destruct (Unicode.utf8_decode s) as [l|] eqn:Ed; [|rewrite Ed; reflexivity].
  pose proof (UnicodeFacts.do_lower_out [] l (UnicodeFacts.decode_scalar s l Ed)) as Hout.
  rewrite UnicodeFacts.decode_encode.
  - rewrite UnicodeFacts.do_lower_fixed; [reflexivity|].
    revert Hout; apply Forall_impl; intros x Hx; apply andb_true_iff in Hx; apply Hx.
  - revert Hout; apply Forall_impl; intros x Hx; apply andb_true_iff in Hx; apply Hx.
Qed.

(** [str.lower] on non-ASCII capitals: "Élan".lower() is "élan", the
    Kelvin sign lowers to "k", and a final capital sigma to U+03C2. *)
Lemma lower_examples :
  lower "Élan" = "élan" /\ lower "Keep" = "keep"
  /\ lower "ΟΔΟΣ" = "οδος".
Proof. vm_compute; auto. Qed.

Lemma set_mem_In (st : list string) (x : string) :
  set_mem st x = true <-> In x st.
Proof.
  unfold set_mem; rewrite existsb_exists; split.
  - intros [y [Hy Heq]]; apply String.eqb_eq in Heq; subst; exact Hy.
  - intros Hx; exists x; split; [exact Hx | apply String.eqb_refl].
Qed.

Lemma prefix_app (a b : string) :
  prefix a b = true <-> exists q, b = a ++ q.
Proof.
  revert b; induction a as [|c a IH]; intros b; simpl.
  - split; [intros _; exists b; reflexivity | destruct b; reflexivity].
  - destruct b as [|d b].
    + split; [discriminate | intros [q Hq]; discriminate].
    + simpl; destruct (ascii_dec c d) as [->|Hne].
      * rewrite IH; split; intros [q Hq]; exists q;
          [rewrite Hq | injection Hq]; auto.
      * split; [discriminate | intros [q Hq]; injection Hq; congruence].
Qed.

Lemma str_contains_spec (s sub : string) :
  str_contains s sub = true <-> substring_of sub s.
Proof.
  unfold substring_of; induction s as [|c s IH]; cbn [str_contains].
  - rewrite orb_false_r, prefix_app; split.
    + intros [q Hq]; exists EmptyString, q; exact Hq.
    + intros [p [q Hpq]]; destruct p; [exists q; exact Hpq | discriminate].
  - rewrite orb_true_iff, prefix_app, IH; split.
    + intros [[q Hq] | [p [q Hpq]]].
      * exists EmptyString, q; exact Hq.
      * exists (String c p), q; simpl; rewrite Hpq; reflexivity.
    + intros [p [q Hpq]]; destruct p as [|d p]; simpl in Hpq.
      * left; exists q; exact Hpq.
      * right; injection Hpq as _ Hs; exists p, q; exact Hs.
Qed.

Lemma spacy_tokenizer_eq (nlp : Pipeline) (sentence : string) :
  spacy_tokenizer nlp sentence =
  filter (fun token => negb (set_mem stop_words token)
                       && negb (str_contains punctuations token))
         (map lemma_lower (nlp sentence)).
Proof. reflexivity. Qed.

Lemma spacy_tokenizer_In (nlp : Pipeline) (sentence t : string) :
  In t (spacy_tokenizer nlp sentence) <->
  In t (map lemma_lower (nlp sentence)) /\ ~ In t stop_words
  /\ ~ substring_of t punctuations.
Proof.
  rewrite spacy_tokenizer_eq, filter_In, andb_true_iff, !negb_true_iff.
  rewrite <- (set_mem_In stop_words t), <- str_contains_spec.
  split.
  - intros [Hin [Hs Hp]]; repeat split; [exact Hin | |]; intros H;
      [rewrite Hs in H | rewrite Hp in H]; discriminate.
  - intros [Hin [Hs Hp]]; repeat split; [exact Hin | |].
    + destruct (set_mem stop_words t); [contradiction Hs|]; reflexivity.
    + destruct (str_contains punctuations t); [contradiction Hp|]; reflexivity.
Qed.

Lemma filter_subseq {A : Type} (f : A -> bool) (l : list A) :
  subseq (filter f l) l.
Proof.
  induction l as [|x l IH]; simpl; [constructor|].
  destruct (f x); constructor; exact IH.
Qed.

Lemma count_vocab_ext (a1 a2 : string -> list string) (v : CountVectorizer.vocab)
  (docs : list string) :
  (forall d, In d docs -> a1 d = a2 d) ->
  CountVectorizer.count_vocab a1 v docs = CountVectorizer.count_vocab a2 v docs.
Proof.
  revert v; induction docs as [|d ds IH]; intros v Hext; simpl; [reflexivity|].
  rewrite (Hext d (or_introl eq_refl)).
  destruct (CountVectorizer.count_doc v [] (a2 d)) as [v' c].
  rewrite IH; [reflexivity|].
  intros d' Hd'; apply Hext; right; exact Hd'.
Qed.

Lemma fit_transform_ext (t1 t2 : string -> list string) (docs : list string) :
  (forall d, In d docs -> t1 (lower d) = t2 (lower d)) ->
  CountVectorizer.fit_transform t1 docs = CountVectorizer.fit_transform t2 docs.
Proof.
  intros Hext; unfold CountVectorizer.fit_transform.
  rewrite (count_vocab_ext (CountVectorizer.analyzer t1)
                           (CountVectorizer.analyzer t2)); [reflexivity|].
  intros d Hd; apply Hext; exact Hd.
Qed.

(** ** Claims *)

(** C1 (as stated, refuted).  The claim says every token whose normalized
    form consists solely of punctuation characters is absent from the
    output.  A [Doc] whose single token is the ellipsis ["..."] (spaCy keeps
    ["..."] as one token, with lemma ["..."]) is tokenized to [["..."]]:
    a punctuation-only token survives, because ["..."] is not a substring
    of [string.punctuation]. *)
Lemma C1_counterexample :
  punct_only "..." = true /\
  In "..." (spacy_tokenizer (fun _ => doc_of_lemmas ["..."]) "...").
Proof. split; vm_compute; auto. Qed.

(** C1 (amended).  For every pipeline and every input string, no token of
    the output is a stop word, and no token of the output is a contiguous
    substring of [string.punctuation] (so no single punctuation character
    and no empty token). *)
Theorem C1_no_stop_words_no_punctuation (nlp : Pipeline) (sentence : string) :
  Forall (fun t => ~ In t stop_words /\ ~ substring_of t punctuations)
         (spacy_tokenizer nlp sentence).
Proof.
  apply Forall_forall; intros t Ht.
  apply spacy_tokenizer_In in Ht; destruct Ht as [_ [Hs Hp]]; split; assumption.
Qed.

(** C2.  Fitting [CountVectorizer(tokenizer=spacy_tokenizer)] on
    [sentences] gives the vocabulary [apple, cricket, eat, like, play] (as
    [cv.vocabulary_] the dict [{eat: 2, apple: 0, like: 3, play: 4,
    cricket: 1}]) and the 2-by-5 matrix [[2,0,1,1,0],[0,1,0,0,1]].  The
    vectorizer lower-cases each sentence before calling the tokenizer; the
    hypotheses are the lower-cased lemmas spaCy assigns to the two
    lower-cased sentences. *)
Theorem C2_count_vectorizer_sentences (nlp : Pipeline) :
  map lemma_lower (nlp "i am eating apple, i like apple")
    = ["i"; "be"; "eat"; "apple"; ","; "i"; "like"; "apple"] ->
  map lemma_lower (nlp "i am playing cricket")
    = ["i"; "be"; "play"; "cricket"] ->
  let cv := CountVectorizer.fit_transform (spacy_tokenizer nlp) sentences in
  CountVectorizer.feature_names_out cv = ["apple"; "cricket"; "eat"; "like"; "play"]
  /\ CountVectorizer.vocabulary_ cv
       = [("eat", 2); ("apple", 0); ("like", 3); ("play", 4); ("cricket", 1)]
  /\ CountVectorizer.matrix cv = [[2; 0; 1; 1; 0]; [0; 1; 0; 0; 1]].
Proof.
  intros H1 H2 cv; subst cv.
  rewrite (fit_transform_ext _
    (fun s => if String.eqb s "i am eating apple, i like apple"
              then ["eat"; "apple"; "like"; "apple"] else ["play"; "cricket"])).
  - vm_compute; auto.
  - intros d [<- | [<- | []]]; rewrite spacy_tokenizer_eq;
      [change (lower "I am eating apple, I like apple")
         with "i am eating apple, i like apple"; rewrite H1
      |change (lower "I am playing cricket") with "i am playing cricket";
       rewrite H2];
      reflexivity.
Qed.

Lemma C2_count_vectorizer_sentences_witness :
  let nlp : Pipeline := fun s =>
    if String.eqb s "i am eating apple, i like apple"
    then doc_of_lemmas ["I"; "be"; "eat"; "apple"; ","; "I"; "like"; "apple"]
    else doc_of_lemmas ["I"; "be"; "play"; "cricket"] in
  let cv := CountVectorizer.fit_transform (spacy_tokenizer nlp) sentences in
  CountVectorizer.feature_names_out cv = ["apple"; "cricket"; "eat"; "like"; "play"]
  /\ CountVectorizer.vocabulary_ cv
       = [("eat", 2); ("apple", 0); ("like", 3); ("play", 4); ("cricket", 1)]
  /\ CountVectorizer.matrix cv = [[2; 0; 1; 1; 0]; [0; 1; 0; 0; 1]].
Proof.
  intros nlp; apply (C2_count_vectorizer_sentences nlp); vm_compute; reflexivity.
Defined.

(** C3.  [spacy_tokenizer("I am eating apple, I like apple")] is
    [["eat", "apple", "like", "apple"]] and
    [spacy_tokenizer("I am playing cricket")] is [["play", "cricket"]],
    given the lemmas spaCy assigns ("I" to the pronoun, "be" to "am", "eat"
    to "eating", "play" to "playing"): the pronoun, the auxiliary and the
    comma are dropped by the stop-word and punctuation filters. *)
Theorem C3_tokenize_examples (nlp : Pipeline) :
  map lemma_ (nlp "I am eating apple, I like apple")
    = ["I"; "be"; "eat"; "apple"; ","; "I"; "like"; "apple"] ->
  map lemma_ (nlp "I am playing cricket")
    = ["I"; "be"; "play"; "cricket"] ->
  spacy_tokenizer nlp "I am eating apple, I like apple"
    = ["eat"; "apple"; "like"; "apple"]
  /\ spacy_tokenizer nlp "I am playing cricket" = ["play"; "cricket"].
Proof.
  intros H1 H2; rewrite !spacy_tokenizer_eq; unfold lemma_lower.
  rewrite <- (map_map lemma_ lower), H1, <- (map_map lemma_ lower), H2.
  split; reflexivity.
Qed.

Lemma C3_tokenize_examples_witness :
  let nlp : Pipeline := fun s =>
    if String.eqb s "I am eating apple, I like apple"
    then doc_of_lemmas ["I"; "be"; "eat"; "apple"; ","; "I"; "like"; "apple"]
    else doc_of_lemmas ["I"; "be"; "play"; "cricket"] in
  spacy_tokenizer nlp "I am eating apple, I like apple"
    = ["eat"; "apple"; "like"; "apple"]
  /\ spacy_tokenizer nlp "I am playing cricket" = ["play"; "cricket"].
Proof.
  intros nlp; apply (C3_tokenize_examples nlp); vm_compute; reflexivity.
Defined.

(** C4.  Every token of the output is lower-case: [t.lower() == t], for
    every pipeline and every input string, whatever the token class. *)
Theorem C4_output_lower_case (nlp : Pipeline) (sentence : string) :
  Forall (fun t => lower t = t) (spacy_tokenizer nlp sentence).
Proof.
  apply Forall_forall; intros t Ht.
  apply spacy_tokenizer_In in Ht; destruct Ht as [Hin _].
  apply in_map_iff in Hin; destruct Hin as [w [<- _]].
  unfold lemma_lower; apply lower_idem.
Qed.

(** C5.  The tokenizer maps the empty string to the empty list, given that
    the pipeline's [Doc] for the empty string has no token with a non-empty
    lemma (spaCy's [nlp("")] has no token at all). *)
Theorem C5_empty_input (nlp : Pipeline) :
  Forall (fun w => lemma_lower w = EmptyString) (nlp EmptyString) ->
  spacy_tokenizer nlp EmptyString = [].
Proof.
  intros Hall; rewrite spacy_tokenizer_eq.
  induction Hall as [|w ws Hw _ IH]; simpl; [reflexivity|].
  rewrite Hw; exact IH.
Qed.

Lemma C5_empty_input_witness :
  Forall (fun w => lemma_lower w = EmptyString) ((fun _ => []) EmptyString) /\
  spacy_tokenizer (fun _ => []) EmptyString = [].
Proof.
  split; [constructor | apply C5_empty_input; constructor].
Defined.

(** C6.  If the pipeline reads [s] as a single token whose lower-cased
    lemma is [s] itself, and [s] is neither a stop word nor caught by the
    punctuation test, then [spacy_tokenizer(s) = [s]]: re-tokenizing the
    sole output token gives it back unchanged. *)
Theorem C6_single_token_fixpoint (nlp : Pipeline) (s : string) :
  map lemma_lower (nlp s) = [s] ->
  ~ In s stop_words ->
  ~ substring_of s punctuations ->
  spacy_tokenizer nlp s = [s].
Proof.
  intros Hdoc Hs Hp; rewrite spacy_tokenizer_eq, Hdoc.
  rewrite <- set_mem_In in Hs; rewrite <- str_contains_spec in Hp.
  destruct (set_mem stop_words s) eqn:Es; [contradiction Hs; reflexivity|].
  destruct (str_contains punctuations s) eqn:Ep; [contradiction Hp; reflexivity|].
  cbn [filter]; rewrite Es, Ep; reflexivity.
Qed.

Lemma C6_single_token_fixpoint_witness :
  spacy_tokenizer (fun s => doc_of_lemmas [s]) "apple" = ["apple"].
Proof.
  apply C6_single_token_fixpoint.
  - reflexivity.
  - rewrite <- set_mem_In; vm_compute; discriminate.
  - rewrite <- str_contains_spec; vm_compute; discriminate.
Defined.

(** C7.  The output depends only on the sequence of lemmas the pipeline
    assigns to the input: two pipelines that agree on it (whatever else
    their tokens carry) give the same token list. *)
Theorem C7_deterministic (nlp1 nlp2 : Pipeline) (sentence : string) :
  map lemma_ (nlp1 sentence) = map lemma_ (nlp2 sentence) ->
  spacy_tokenizer nlp1 sentence = spacy_tokenizer nlp2 sentence.
Proof.
  intros Heq; rewrite !spacy_tokenizer_eq; unfold lemma_lower.
  rewrite <- !(map_map lemma_ lower), Heq; reflexivity.
Qed.

Lemma C7_deterministic_witness :
  spacy_tokenizer (fun _ => [mkToken "Apples" "apple"]) "Apples"
  = spacy_tokenizer (fun _ => [mkToken "apples" "apple"]) "Apples".
Proof. apply C7_deterministic; reflexivity. Defined.

(** C8.  On label sequences of equal length, [precision_score],
    [recall_score] and [f1_score] never raise, and each returns [0]
    (with a warning) when its denominator is zero: no predicted positive
    for the precision, no true positive label for the recall, and neither
    for the F1 score. *)
Theorem C8_zero_division_returns_zero (y_true y_pred : list bool) :
  List.length y_true = List.length y_pred ->
  Metrics.is_value (Metrics.precision_score y_true y_pred) = true
  /\ Metrics.is_value (Metrics.recall_score y_true y_pred) = true
  /\ Metrics.is_value (Metrics.f1_score y_true y_pred) = true
  /\ (Metrics.pred_sum y_pred = 0 ->
      Metrics.precision_score y_true y_pred = Metrics.Value 0%Q true)
  /\ (Metrics.true_sum y_true = 0 ->
      Metrics.recall_score y_true y_pred = Metrics.Value 0%Q true)
  /\ (Metrics.true_sum y_true + Metrics.pred_sum y_pred = 0 ->
      Metrics.f1_score y_true y_pred = Metrics.Value 0%Q true).
Proof.
  intros Hlen.
  unfold Metrics.precision_score, Metrics.recall_score, Metrics.f1_score,
    Metrics.check_consistent_length.
  rewrite Hlen, Nat.eqb_refl.
  unfold Metrics.prf_divide.
  repeat split;
    try (intros H0; rewrite H0; reflexivity);
    match goal with |- context [if ?b then _ else _] => destruct b end;
    reflexivity.
Qed.

Lemma C8_zero_division_returns_zero_witness :
  Metrics.precision_score [true; false] [false; false] = Metrics.Value 0%Q true
  /\ Metrics.f1_score [false; false] [false; false] = Metrics.Value 0%Q true.
Proof.
  destruct (C8_zero_division_returns_zero [true; false] [false; false]
              eq_refl) as [_ [_ [_ [Hp _]]]].
  destruct (C8_zero_division_returns_zero [false; false] [false; false]
              eq_refl) as [_ [_ [_ [_ [_ Hf]]]]].
  split; [apply Hp | apply Hf]; reflexivity.
Defined.

(** C9.  The punctuation test is substring membership in the 32-character
    string [string.punctuation]: a token survives the tokenizer exactly
    when it is a normalized lemma of the input, not a stop word, and not a
    contiguous substring of [punctuations].  So ["()"] is caught by the
    test, while ["..."], made of punctuation characters only, is not. *)
Theorem C9_punctuation_is_substring_test :
  String.length punctuations = 32
  /\ (forall (nlp : Pipeline) (sentence t : string),
        In t (spacy_tokenizer nlp sentence) <->
        In t (map lemma_lower (nlp sentence)) /\ ~ In t stop_words
        /\ ~ substring_of t punctuations)
  /\ substring_of "()" punctuations
  /\ ~ substring_of "..." punctuations
  /\ punct_only "..." = true
  /\ spacy_tokenizer (fun _ => doc_of_lemmas ["()"; "..."]) "()..." = ["..."].
Proof.
  split; [reflexivity|].
  split; [exact spacy_tokenizer_In|].
  split; [apply str_contains_spec; vm_compute; reflexivity|].
  split; [rewrite <- str_contains_spec; vm_compute; discriminate|].
  split; vm_compute; reflexivity.
Qed.

(** C10.  The output is a subsequence of the lower-cased lemmas of the
    pipeline's tokens: the filter only removes elements, in order, and
    never rewrites, duplicates or inserts one. *)
Theorem C10_output_subsequence (nlp : Pipeline) (sentence : string) :
  subseq (spacy_tokenizer nlp sentence) (map lemma_lower (nlp sentence)).
Proof.
  rewrite spacy_tokenizer_eq; apply filter_subseq.
Qed.

(** ** Properties of the vectorizer *)

Module VectorizerFacts.
Import CountVectorizer.
Lemma vocab_index_In v t i : vocab_index v t = Some i -> In (t, i) v.
Proof.
  induction v as [|[t' j] v IH]; simpl; [discriminate|].
  destruct (String.eqb_spec t t') as [->|_]; [injection 1 as ->; left; reflexivity|].
  intros H; right; apply IH, H.
Qed.

Lemma vocab_index_None v t : vocab_index v t = None <-> ~ In t (map fst v).
Proof.
  induction v as [|[t' j] v IH]; simpl; [tauto|].
  destruct (String.eqb_spec t t') as [->|Hne]; [split; [discriminate|tauto]|].
  rewrite IH; intuition.
Qed.

Lemma vocab_index_app v ext t i :
  vocab_index v t = Some i -> vocab_index (app v ext) t = Some i.
Proof.
  induction v as [|[t' j] v IH]; simpl; [discriminate|].
  destruct (String.eqb t t'); [tauto | exact IH].
Qed.

Lemma vocab_index_NoDup v t i :
  NoDup (map fst v) -> In (t, i) v -> vocab_index v t = Some i.
Proof.
  induction v as [|[t' j] v IH]; simpl; [contradiction|].
  intros Hnd Hin; inversion Hnd as [|? ? Hnotin Hnd']; subst.
  destruct Hin as [Heq | Hin].
  - injection Heq as -> ->; rewrite String.eqb_refl; reflexivity.
  - destruct (String.eqb_spec t t') as [->|_].
    + exfalso; apply Hnotin; apply in_map_iff; exists (t', i); auto.
    + apply IH; assumption.
Qed.

Lemma snd_unique (l : vocab) a b i :
  NoDup (map snd l) -> In (a, i) l -> In (b, i) l -> a = b.
Proof.
  induction l as [|[t j] l IH]; simpl; [contradiction|].
  intros Hnd Ha Hb; inversion Hnd as [|? ? Hnotin Hnd']; subst.
  destruct Ha as [Ha|Ha], Hb as [Hb|Hb].
  - congruence.
  - injection Ha as -> ->; exfalso; apply Hnotin, in_map_iff; exists (b, i); auto.
  - injection Hb as -> ->; exfalso; apply Hnotin, in_map_iff; exists (a, i); auto.
  - apply IH; assumption.
Qed.

(** In a well-formed vocabulary, column [i] of term [t] is reached by [t] only. *)
Lemma vocab_wf_index v t i f :
  vocab_wf v -> In (t, i) v -> (vocab_index v f = Some i <-> f = t).
Proof.
  intros [Hsnd Hnd] Hin; split.
  - intros Hf; apply vocab_index_In in Hf.
    assert (Hnd2 : NoDup (map snd v)) by (rewrite Hsnd; apply seq_NoDup).
    eapply snd_unique; eassumption.
  - intros ->; apply vocab_index_NoDup; assumption.
Qed.

Lemma vocab_index_app_new v t n :
  ~ In t (map fst v) -> vocab_index (app v [(t, n)]) t = Some n.
Proof.
  induction v as [|[t' j] v IH]; simpl; intros Hnot.
  - rewrite String.eqb_refl; reflexivity.
  - destruct (String.eqb_spec t t') as [->|_]; [tauto|].
    apply IH; tauto.
Qed.

Lemma vocab_get_spec v t v' i :
  vocab_wf v -> vocab_get v t = (v', i) ->
  vocab_wf v' /\ (exists ext, v' = app v ext) /\ vocab_index v' t = Some i
  /\ (forall s, In s (map fst v') <-> In s (map fst v) \/ s = t).
Proof.
  intros [Hsnd Hnd]; unfold vocab_get.
  destruct (vocab_index v t) as [j|] eqn:Hidx; intros Hget; injection Hget as <- <-.
  - split; [split; assumption|]; split; [exists []; rewrite app_nil_r; reflexivity|].
    split; [exact Hidx|].
    intros s; split; [tauto|]; intros [Hs | ->]; [exact Hs|].
    apply in_map_iff; exists (t, j); split; [reflexivity|]; apply vocab_index_In; exact Hidx.
  - apply vocab_index_None in Hidx.
    repeat split.
    + rewrite map_app, Hsnd, length_app; simpl; rewrite Nat.add_1_r, seq_S; reflexivity.
    + rewrite map_app; simpl; apply NoDup_app; try assumption.
      * repeat constructor; auto.
      * intros x Hx Hx'; destruct Hx' as [<-|[]]; contradiction.
    + exists [(t, List.length v)]; reflexivity.
    + apply vocab_index_app_new; exact Hidx.
    + rewrite map_app, in_app_iff; simpl; intuition.
    + rewrite map_app, in_app_iff; simpl; intuition.
Qed.

Lemma counter_get_incr c k k' :
  counter_get (counter_incr c k) k' = (if Nat.eqb k' k then 1 else 0) + counter_get c k'.
Proof.
  induction c as [|[k0 n] c IH]; simpl.
  - destruct (Nat.eqb k' k); reflexivity.
  - destruct (Nat.eqb_spec k k0) as [->|Hne]; simpl.
    + destruct (Nat.eqb k' k0); reflexivity.
    + rewrite IH; destruct (Nat.eqb_spec k' k0) as [->|_];
        [destruct (Nat.eqb_spec k0 k); [congruence | reflexivity] | reflexivity].
Qed.

Lemma hits_cons v k f fs :
  hits v k (f :: fs) =
  (match vocab_index v f with Some j => if Nat.eqb j k then 1 else 0 | None => 0 end)
  + hits v k fs.
Proof.
  unfold hits; simpl; destruct (vocab_index v f) as [j|]; [|reflexivity].
  destruct (Nat.eqb j k); reflexivity.
Qed.

Lemma count_doc_spec feats v c v' c' :
  vocab_wf v -> count_doc v c feats = (v', c') ->
  vocab_wf v' /\ (exists ext, v' = app v ext)
  /\ (forall s, In s (map fst v') <-> In s (map fst v) \/ In s feats)
  /\ (forall k, counter_get c' k = counter_get c k + hits v' k feats).
Proof.
  revert v c; induction feats as [|f fs IH]; intros v c Hwf Hrun; simpl in Hrun.
  - injection Hrun as <- <-; split; [exact Hwf|].
    split; [exists []; rewrite app_nil_r; reflexivity|].
    split; [simpl; tauto|]. intros k; unfold hits; simpl; lia.
  - destruct (vocab_get v f) as [v1 i] eqn:Hget.
    destruct (vocab_get_spec v f v1 i Hwf Hget) as [Hwf1 [[e1 ->] [Hi Hkeys1]]].
    destruct (IH _ _ Hwf1 Hrun) as [Hwf' [[e2 ->] [Hkeys' Hcnt]]].
    split; [exact Hwf'|].
    split; [exists (app e1 e2); rewrite app_assoc; reflexivity|].
    split.
    + intros s; rewrite Hkeys', Hkeys1; simpl; intuition; subst; auto.
    + intros k; rewrite Hcnt, counter_get_incr, hits_cons.
      rewrite (vocab_index_app _ e2 _ _ Hi), Nat.eqb_sym.
      destruct (Nat.eqb i k); lia.
Qed.

Lemma hits_ext v ext k feats :
  (forall f, In f feats -> In f (map fst v)) ->
  hits (app v ext) k feats = hits v k feats.
Proof.
  induction feats as [|f fs IH]; intros Hin; [reflexivity|].
  rewrite !hits_cons, IH by (intros g Hg; apply Hin; right; exact Hg).
  destruct (vocab_index v f) as [j|] eqn:Hj.
  - rewrite (vocab_index_app _ ext _ _ Hj); reflexivity.
  - exfalso; apply vocab_index_None in Hj; apply Hj, Hin; left; reflexivity.
Qed.

Lemma count_vocab_spec (a : string -> list string) docs v V cs :
  vocab_wf v -> count_vocab a v docs = (V, cs) ->
  vocab_wf V /\ (exists ext, V = app v ext)
  /\ (forall s, In s (map fst V) <-> In s (map fst v) \/ exists d, In d docs /\ In s (a d))
  /\ Forall2 (fun d c => forall k, counter_get c k = hits V k (a d)) docs cs.
Proof.
  revert v V cs; induction docs as [|d ds IH]; intros v V cs Hwf Hrun; simpl in Hrun.
  - injection Hrun as <- <-; split; [exact Hwf|].
    split; [exists []; rewrite app_nil_r; reflexivity|].
    split; [intros s; split; [tauto | intros [H|[d [[] _]]]; exact H] | constructor].
  - destruct (count_doc v [] (a d)) as [v1 c] eqn:Hdoc.
    destruct (count_vocab a v1 ds) as [v2 cs'] eqn:Hrest.
    injection Hrun as <- <-.
    destruct (count_doc_spec _ _ _ _ _ Hwf Hdoc) as [Hwf1 [[e1 ->] [Hkeys1 Hcnt1]]].
    destruct (IH _ _ _ Hwf1 Hrest) as [Hwf2 [[e2 ->] [Hkeys2 HF]]].
    split; [exact Hwf2|].
    split; [exists (app e1 e2); rewrite app_assoc; reflexivity|].
    split.
    + intros s; rewrite Hkeys2, Hkeys1; simpl; split.
      * intros [[H|H]|[d' [Hd' Hs]]]; [tauto| right; exists d; tauto | right; exists d'; tauto].
      * intros [H|[d' [[<-|Hd'] Hs]]]; [tauto | tauto | right; exists d'; tauto].
    + constructor; [|exact HF].
      intros k; rewrite Hcnt1; simpl.
      rewrite (hits_ext (app v e1) e2); [reflexivity|].
      intros f Hf; apply Hkeys1; right; exact Hf.
Qed.

Lemma ascii_compare_lt_trans x y z :
  Ascii.compare x y = Lt -> Ascii.compare y z = Lt -> Ascii.compare x z = Lt.
Proof. unfold Ascii.compare; rewrite !N.compare_lt_iff; lia. Qed.

Lemma string_compare_lt_trans a b c :
  String.compare a b = Lt -> String.compare b c = Lt -> String.compare a c = Lt.
Proof.
  revert b c; induction a as [|x a IH]; intros [|y b] [|z c]; simpl;
    try discriminate; try reflexivity.
  destruct (Ascii.compare x y) eqn:Exy; try discriminate;
  destruct (Ascii.compare y z) eqn:Eyz; try discriminate.
  - pose proof (Ascii.compare_eq_iff _ _ Exy) as ->; rewrite Eyz; exact (IH b c).
  - pose proof (Ascii.compare_eq_iff _ _ Exy) as ->; rewrite Eyz; reflexivity.
  - pose proof (Ascii.compare_eq_iff _ _ Eyz) as <-; rewrite Exy; reflexivity.
  - rewrite (ascii_compare_lt_trans _ _ _ Exy Eyz); reflexivity.
Qed.

Lemma string_leb_trans a b c :
  String.leb a b = true -> String.leb b c = true -> String.leb a c = true.
Proof.
  unfold String.leb.
  destruct (String.compare a b) eqn:Eab; try discriminate;
  destruct (String.compare b c) eqn:Ebc; try discriminate; intros _ _.
  - pose proof (String.compare_eq_iff _ _ Eab) as ->; rewrite Ebc; reflexivity.
  - pose proof (String.compare_eq_iff _ _ Eab) as ->; rewrite Ebc; reflexivity.
  - pose proof (String.compare_eq_iff _ _ Ebc) as <-; rewrite Eab; reflexivity.
  - rewrite (string_compare_lt_trans _ _ _ Eab Ebc); reflexivity.
Qed.

Lemma string_ltb_leb a b : String.ltb a b = true -> String.leb a b = true.
Proof. unfold String.ltb, String.leb; destruct (String.compare a b); congruence. Qed.

Lemma string_ltb_false_leb a b : String.ltb a b = false -> String.leb b a = true.
Proof.
  unfold String.ltb, String.leb; rewrite String.compare_antisym.
  destruct (String.compare b a); simpl; congruence.
Qed.

Lemma insert_item_perm x l : Permutation (insert_item x l) (x :: l).
Proof.
  induction l as [|y l IH]; simpl; [reflexivity|].
  destruct (String.ltb (fst x) (fst y)); [reflexivity|].
  rewrite IH; apply perm_swap.
Qed.

Lemma sort_items_perm l : Permutation (sort_items l) l.
Proof.
  induction l as [|x l IH]; simpl; [reflexivity|].
  rewrite insert_item_perm, IH; reflexivity.
Qed.


Lemma insert_item_sorted x l :
  StronglySorted key_le l -> StronglySorted key_le (insert_item x l).
Proof.
  induction l as [|y l IH]; simpl; intros Hs.
  - repeat constructor.
  - apply StronglySorted_inv in Hs; destruct Hs as [Hs Hy].
    destruct (String.ltb (fst x) (fst y)) eqn:Hxy.
    + constructor; [constructor; [exact Hs | exact Hy]|].
      constructor; [apply string_ltb_leb, Hxy|].
      eapply Forall_impl; [|exact Hy].
      intros z Hz; eapply string_leb_trans; [apply string_ltb_leb, Hxy | exact Hz].
    + constructor; [apply IH, Hs|].
      apply Forall_forall; intros z Hz.
      apply (Permutation_in _ (insert_item_perm x l)) in Hz.
      destruct Hz as [<-|Hz]; [apply string_ltb_false_leb, Hxy|].
      rewrite Forall_forall in Hy; apply Hy, Hz.
Qed.

Lemma sort_items_sorted l : StronglySorted key_le (sort_items l).
Proof.
  induction l as [|x l IH]; simpl; [constructor|].
  apply insert_item_sorted, IH.
Qed.

Lemma strongly_sorted_map_fst (l : list (string * nat)) :
  StronglySorted key_le l ->
  StronglySorted (fun a b => String.leb a b = true) (map fst l).
Proof.
  induction 1 as [|p l _ IH Hp]; simpl; constructor; [exact IH|].
  apply Forall_map; exact Hp.
Qed.

Lemma vocab_wf_nil : vocab_wf [].
Proof. split; [reflexivity | constructor]. Qed.

Lemma fit_transform_unfold tok docs V cs :
  count_vocab (analyzer tok) [] docs = (V, cs) ->
  fit_transform tok docs =
  mkFitted (map (fun '(t, _) => (t, position t (sort_items V))) V)
           (map fst (sort_items V))
           (map (fun r => map (fun old => nth old r 0) (map snd (sort_items V)))
                (map (dense_row (List.length V)) cs)).
Proof. intros H; unfold fit_transform; rewrite H; reflexivity. Qed.

Lemma nth_map_seq (f : nat -> nat) i n :
  i < n -> nth i (map f (seq 0 n)) 0 = f i.
Proof.
  intros Hi; rewrite nth_indep with (d' := f 0) by (rewrite length_map, length_seq; lia).
  rewrite map_nth, seq_nth by lia; reflexivity.
Qed.

Lemma hits_count v k t feats :
  (forall f, vocab_index v f = Some k <-> f = t) ->
  hits v k feats = count_occ string_dec feats t.
Proof.
  intros Hiff; induction feats as [|f fs IH]; [reflexivity|].
  rewrite hits_cons, IH; simpl.
  destruct (string_dec f t) as [->|Hne].
  - rewrite (proj2 (Hiff t) eq_refl), Nat.eqb_refl; reflexivity.
  - destruct (vocab_index v f) as [j|] eqn:Hj; [|reflexivity].
    destruct (Nat.eqb_spec j k) as [->|_]; [|reflexivity].
    exfalso; apply Hne, Hiff, Hj.
Qed.

Lemma in_sorted_items V t i : In (t, i) (sort_items V) -> In (t, i) V.
Proof. apply Permutation_in, sort_items_perm. Qed.

Lemma keys_sorted_items V t : In t (map fst (sort_items V)) <-> In t (map fst V).
Proof.
  split; apply Permutation_in;
    [|apply Permutation_sym]; apply Permutation_map, sort_items_perm.
Qed.

(** Row of document [d] in [fit_transform]: the count of each feature name. *)
Lemma fit_matrix_counts tok docs :
  matrix (fit_transform tok docs) =
  map (fun d => map (count_occ string_dec (analyzer tok d))
                    (feature_names_out (fit_transform tok docs))) docs.
Proof.
  destruct (count_vocab (analyzer tok) [] docs) as [V cs] eqn:Hcv.
  destruct (count_vocab_spec _ _ _ _ _ vocab_wf_nil Hcv) as [Hwf [_ [_ HF]]].
  rewrite (fit_transform_unfold _ _ _ _ Hcv); simpl.
  rewrite map_map; clear Hcv.
  induction HF as [|d c ds cs' Hc _ IH]; simpl; [reflexivity|].
  rewrite IH; f_equal.
  rewrite !map_map; apply map_ext_in; intros [t i] Hin; simpl.
  apply in_sorted_items in Hin.
  assert (Hi : i < List.length V).
  { destruct Hwf as [Hsnd _].
    assert (Hs : In i (map snd V)) by (apply in_map_iff; exists (t, i); auto).
    rewrite Hsnd, in_seq in Hs; lia. }
  unfold dense_row; rewrite nth_map_seq by exact Hi.
  rewrite Hc; apply hits_count.
  intros f; apply vocab_wf_index; assumption.
Qed.

(** The feature names are the distinct tokens of the corpus, sorted. *)
Lemma fit_features_spec tok docs :
  let names := feature_names_out (fit_transform tok docs) in
  NoDup names
  /\ StronglySorted (fun a b => String.leb a b = true) names
  /\ (forall t, In t names <-> exists d, In d docs /\ In t (analyzer tok d)).
Proof.
  destruct (count_vocab (analyzer tok) [] docs) as [V cs] eqn:Hcv.
  destruct (count_vocab_spec _ _ _ _ _ vocab_wf_nil Hcv) as [[_ Hnd] [_ [Hkeys _]]].
  rewrite (fit_transform_unfold _ _ _ _ Hcv); simpl.
  split; [|split].
  - eapply Permutation_NoDup; [|exact Hnd].
    apply Permutation_sym, Permutation_map, sort_items_perm.
  - apply strongly_sorted_map_fst, sort_items_sorted.
  - intros t; rewrite keys_sorted_items, Hkeys; simpl; tauto.
Qed.

Lemma vocab_index_relabel (V : vocab) (g : string -> nat) t :
  vocab_index (map (fun '(t', _) => (t', g t')) V) t =
  if in_dec string_dec t (map fst V) then Some (g t) else None.
Proof.
  induction V as [|[t' j] V IH]; simpl; [reflexivity|].
  destruct (String.eqb_spec t t') as [->|Hne].
  - destruct (string_dec t' t'); [reflexivity | congruence].
  - rewrite IH; destruct (in_dec string_dec t (map fst V));
      destruct (string_dec t' t); try congruence; tauto.
Qed.

Lemma position_map_fst t (l : list (string * nat)) :
  position t l = position_list t (map fst l).
Proof.
  induction l as [|[t' j] l IH]; simpl; [reflexivity|].
  rewrite IH; reflexivity.
Qed.

Lemma position_list_nth t l :
  In t l -> nth_error l (position_list t l) = Some t.
Proof.
  induction l as [|t' l IH]; simpl; [contradiction|].
  destruct (String.eqb_spec t t') as [->|Hne]; [reflexivity|].
  intros [->|Hin]; [congruence | apply IH, Hin].
Qed.

Lemma nth_position_list t l j :
  NoDup l -> nth_error l j = Some t -> position_list t l = j.
Proof.
  revert j; induction l as [|t' l IH]; intros j Hnd Hj; [destruct j; discriminate|].
  inversion Hnd as [|? ? Hnotin Hnd']; subst.
  destruct j as [|j]; simpl in Hj.
  - injection Hj as ->; simpl; rewrite String.eqb_refl; reflexivity.
  - simpl; destruct (String.eqb_spec t t') as [->|Hne].
    + exfalso; apply Hnotin; eapply nth_error_In; exact Hj.
    + f_equal; apply IH; assumption.
Qed.

(** [vocabulary_[t] == j] exactly when column [j] is named [t]. *)
Lemma fit_vocabulary_spec tok docs t j :
  vocab_index (vocabulary_ (fit_transform tok docs)) t = Some j <->
  nth_error (feature_names_out (fit_transform tok docs)) j = Some t.
Proof.
  destruct (count_vocab (analyzer tok) [] docs) as [V cs] eqn:Hcv.
  destruct (count_vocab_spec _ _ _ _ _ vocab_wf_nil Hcv) as [[_ Hnd] _].
  rewrite (fit_transform_unfold _ _ _ _ Hcv); simpl.
  assert (HndS : NoDup (map fst (sort_items V))).
  { eapply Permutation_NoDup; [|exact Hnd].
    apply Permutation_sym, Permutation_map, sort_items_perm. }
  rewrite vocab_index_relabel, position_map_fst.
  destruct (in_dec string_dec t (map fst V)) as [Hin|Hnot]; split.
  - injection 1 as <-; apply position_list_nth, keys_sorted_items, Hin.
  - intros Hj; f_equal; apply nth_position_list; assumption.
  - discriminate.
  - intros Hj; exfalso; apply Hnot, keys_sorted_items; eapply nth_error_In; exact Hj.
Qed.

Lemma count_doc_fixed_spec voc c feats k :
  counter_get (count_doc_fixed voc c feats) k = counter_get c k + hits voc k feats.
Proof.
  revert c; induction feats as [|f fs IH]; intros c; simpl.
  - unfold hits; simpl; lia.
  - rewrite hits_cons. destruct (vocab_index voc f) as [j|]; rewrite IH; [|reflexivity].
    rewrite counter_get_incr, Nat.eqb_sym; destruct (Nat.eqb j k); lia.
Qed.

Lemma map_nth_seq_length (f : string -> nat) (l : list string) :
  map (fun k => f (nth k l EmptyString)) (seq 0 (List.length l)) = map f l.
Proof.
  induction l as [|x l IH]; simpl; [reflexivity|].
  f_equal; rewrite <- seq_shift, map_map; exact IH.
Qed.

(** [transform] counts, in each document, the occurrences of each feature
    name; tokens outside the vocabulary are ignored. *)
Lemma transform_counts tok docs docs' :
  transform (fit_transform tok docs) tok docs' =
  map (fun d => map (count_occ string_dec (analyzer tok d))
                    (feature_names_out (fit_transform tok docs))) docs'.
Proof.
  unfold transform; apply map_ext; intros d.
  set (cv := fit_transform tok docs).
  assert (Hlen : List.length (vocabulary_ cv) = List.length (feature_names_out cv)).
  { subst cv; destruct (count_vocab (analyzer tok) [] docs) as [V cs] eqn:Hcv.
    rewrite (fit_transform_unfold _ _ _ _ Hcv); simpl.
    rewrite !length_map, (Permutation_length (sort_items_perm V)); reflexivity. }
  unfold dense_row; rewrite Hlen, <- map_nth_seq_length.
  apply map_ext_in; intros k Hk; apply in_seq in Hk.
  rewrite count_doc_fixed_spec; simpl.
  apply hits_count; intros f; subst cv; rewrite fit_vocabulary_spec.
  rewrite (nth_error_nth' _ EmptyString) by lia.
  split; [injection 1 as ->; reflexivity | intros ->; reflexivity].
Qed.

(** [fit] raises [ValueError] (empty vocabulary) exactly when no document
    yields a token. *)
Lemma fit_checked_spec tok docs :
  fit_transform_checked tok docs = None <->
  Forall (fun d => analyzer tok d = []) docs.
Proof.
  unfold fit_transform_checked.
  destruct (count_vocab (analyzer tok) [] docs) as [V cs] eqn:Hcv.
  destruct (count_vocab_spec _ _ _ _ _ vocab_wf_nil Hcv) as [_ [_ [Hkeys _]]].
  destruct V as [|[t i] V]; split.
  - intros _; apply Forall_forall; intros d Hd.
    destruct (analyzer tok d) as [|s ss] eqn:Ha; [reflexivity|].
    exfalso; apply (proj2 (Hkeys s)); right; exists d; rewrite Ha; simpl; auto.
  - reflexivity.
  - discriminate.
  - intros Hall; exfalso.
    destruct (proj1 (Hkeys t) (or_introl eq_refl)) as [[]|[d [Hd Ht]]].
    rewrite Forall_forall in Hall; rewrite (Hall d Hd) in Ht; contradiction.
Qed.

End VectorizerFacts.

(** ** Properties of the metrics *)

Module MetricsFacts.
Import Metrics.
Local Open Scope Q_scope.

Lemma tp_le_pred ys yp : (tp_sum ys yp <= pred_sum yp)%nat.
Proof.
  revert yp; induction ys as [|t ts IH]; intros [|p ps]; simpl; try lia.
  specialize (IH ps); destruct t, p; simpl; lia.
Qed.

Lemma tp_le_true ys yp : (tp_sum ys yp <= true_sum ys)%nat.
Proof.
  unfold true_sum; revert yp; induction ys as [|t ts IH]; intros [|p ps]; simpl.
  - lia.
  - lia.
  - destruct t; simpl; specialize (IH []); destruct ts; simpl; lia.
  - specialize (IH ps); destruct t, p; simpl; lia.
Qed.

Lemma ratio_unit (a b : nat) :
  (a <= b)%nat -> (0 < b)%nat ->
  0 <= inject_Z (Z.of_nat a) / inject_Z (Z.of_nat b) <= 1.
Proof.
  intros Hab Hb.
  assert (Hb' : 0 < inject_Z (Z.of_nat b)).
  { rewrite <- (Qmult_0_l 1); unfold Qlt; simpl; lia. }
  split.
  - apply Qle_shift_div_l; [exact Hb'|]. rewrite Qmult_0_l.
    unfold Qle; simpl; lia.
  - apply Qle_shift_div_r; [exact Hb'|]. rewrite Qmult_1_l.
    rewrite <- Zle_Qle; lia.
Qed.

Lemma prf_divide_unit a b q w :
  (a <= b)%nat -> prf_divide a b = Value q w -> 0 <= q <= 1.
Proof.
  unfold prf_divide; intros Hab H.
  destruct (Nat.eqb b 0) eqn:Hb; injection H as <- _.
  - unfold zero_division_value; split; discriminate.
  - apply Nat.eqb_neq in Hb; apply ratio_unit; lia.
Qed.

Lemma metrics_unit_interval (y_true y_pred : list bool) :
  match precision_score y_true y_pred with Value q _ => 0 <= q <= 1 | Raise _ => True end
  /\ match recall_score y_true y_pred with Value q _ => 0 <= q <= 1 | Raise _ => True end
  /\ match f1_score y_true y_pred with Value q _ => 0 <= q <= 1 | Raise _ => True end.
Proof.
  unfold precision_score, recall_score, f1_score.
  destruct (check_consistent_length y_true y_pred); [|repeat split].
  repeat split;
    match goal with |- match ?o with _ => _ end => destruct o as [q w|] eqn:Ho end;
    try exact I; eapply prf_divide_unit; try exact Ho;
    pose proof (tp_le_pred y_true y_pred); pose proof (tp_le_true y_true y_pred); lia.
Qed.

Lemma correct_sum_le ys yp : (correct_sum ys yp <= List.length ys)%nat.
Proof.
  revert yp; induction ys as [|t ts IH]; intros [|p ps]; simpl; try lia.
  specialize (IH ps); destruct (Bool.eqb t p); lia.
Qed.

Lemma correct_sum_full ys yp :
  List.length ys = List.length yp ->
  (correct_sum ys yp = List.length ys <-> ys = yp).
Proof.
  revert yp; induction ys as [|t ts IH]; intros [|p ps] Hlen; simpl in *;
    try discriminate; [tauto|].
  injection Hlen as Hlen; pose proof (correct_sum_le ts ps).
  destruct (Bool.eqb t p) eqn:Htp.
  - apply Bool.eqb_prop in Htp; subst; simpl.
    split.
    + intros Hc; f_equal; apply IH; [exact Hlen | lia].
    + injection 1 as <-; rewrite (proj2 (IH ts Hlen) eq_refl); reflexivity.
  - split; [lia|]. injection 1 as -> _; rewrite Bool.eqb_reflx in Htp; discriminate.
Qed.

Lemma accuracy_spec (y_true y_pred : list bool) :
  List.length y_true = List.length y_pred ->
  (y_true = [] -> accuracy_score y_true y_pred = AccuracyNaN)
  /\ (y_true <> [] ->
      exists q, accuracy_score y_true y_pred = Accuracy q /\ 0 <= q <= 1
                /\ (q == 1 <-> y_true = y_pred)).
Proof.
  intros Hlen; unfold accuracy_score, check_consistent_length.
  rewrite Hlen, Nat.eqb_refl, <- Hlen; split.
  - intros ->; reflexivity.
  - intros Hne; destruct (List.length y_true) as [|n] eqn:Hn.
    + destruct y_true; [contradiction | discriminate].
    + eexists; split; [reflexivity|].
      pose proof (correct_sum_le y_true y_pred) as Hle; rewrite Hn in Hle.
      split; [apply ratio_unit; lia|].
      rewrite <- correct_sum_full, Hn by exact (eq_trans Hn Hlen).
      assert (Hpos : ~ inject_Z (Z.of_nat (S n)) == 0).
      { unfold Qeq; simpl; lia. }
      split.
      * intros Hq.
        assert (Heq : inject_Z (Z.of_nat (correct_sum y_true y_pred))
                      == inject_Z (Z.of_nat (S n))).
        { rewrite <- (Qmult_1_l (inject_Z (Z.of_nat (S n)))), <- Hq.
          field; exact Hpos. }
        apply (proj1 (inject_Z_injective _ _)) in Heq; lia.
      * intros ->; field; exact Hpos.
Qed.

Lemma f1_harmonic_mean (y_true y_pred : list bool) :
  List.length y_true = List.length y_pred ->
  (0 < tp_sum y_true y_pred)%nat ->
  exists p r f,
    precision_score y_true y_pred = Value p false
    /\ recall_score y_true y_pred = Value r false
    /\ f1_score y_true y_pred = Value f false
    /\ f == 2 * p * r / (p + r).
Proof.
  intros Hlen Htp.
  pose proof (tp_le_pred y_true y_pred); pose proof (tp_le_true y_true y_pred).
  unfold precision_score, recall_score, f1_score, check_consistent_length, prf_divide.
  rewrite Hlen, Nat.eqb_refl.
  destruct (Nat.eqb_spec (pred_sum y_pred) 0); [lia|].
  destruct (Nat.eqb_spec (true_sum y_true) 0); [lia|].
  destruct (Nat.eqb_spec (true_sum y_true + pred_sum y_pred) 0); [lia|].
  do 3 eexists; split; [reflexivity|]; split; [reflexivity|]; split; [reflexivity|].
  rewrite Nat2Z.inj_add, Nat2Z.inj_mul, !inject_Z_plus, inject_Z_mult.
  set (tp := inject_Z (Z.of_nat (tp_sum y_true y_pred))).
  set (P := inject_Z (Z.of_nat (pred_sum y_pred))).
  set (T := inject_Z (Z.of_nat (true_sum y_true))).
  assert (HP : ~ P == 0) by (subst P; unfold Qeq; simpl; lia).
  assert (HT : ~ T == 0) by (subst T; unfold Qeq; simpl; lia).
  assert (Htp' : ~ tp == 0) by (subst tp; unfold Qeq; simpl; lia).
  assert (HTP : ~ T + P == 0).
  { subst T P; rewrite <- inject_Z_plus; unfold Qeq; simpl; lia. }
  field; repeat split; try assumption.
  subst tp T P; rewrite <- !inject_Z_mult, <- inject_Z_plus; unfold Qeq; simpl; nia.
Qed.

End MetricsFacts.

(** ** Further properties of the notebook's pipeline *)

(** X1.  [cv.fit_transform(docs).toarray()] has one row per document, in
    order, and the entry of column [j] is the number of occurrences of the
    [j]-th feature name among the tokens of the (lower-cased) document. *)
Theorem X1_fit_transform_counts (tok : string -> list string) (docs : list string) :
  CountVectorizer.matrix (CountVectorizer.fit_transform tok docs) =
  map (fun d => map (count_occ string_dec (CountVectorizer.analyzer tok d))
                    (CountVectorizer.feature_names_out
                       (CountVectorizer.fit_transform tok docs))) docs.
Proof. exact (VectorizerFacts.fit_matrix_counts tok docs). Qed.

(** X2.  [cv.get_feature_names_out()] after [fit] lists every token of the
    corpus exactly once, in sorted order, and nothing else. *)
Theorem X2_feature_names_sorted_distinct (tok : string -> list string)
  (docs : list string) :
  let names := CountVectorizer.feature_names_out
                 (CountVectorizer.fit_transform tok docs) in
  NoDup names
  /\ StronglySorted (fun a b => String.leb a b = true) names
  /\ (forall t, In t names <->
       exists d, In d docs /\ In t (CountVectorizer.analyzer tok d)).
Proof. exact (VectorizerFacts.fit_features_spec tok docs). Qed.

(** X3.  [cv.vocabulary_[t] == j] exactly when [t] is the name of column
    [j]; a term outside the corpus has no entry. *)
Theorem X3_vocabulary_column (tok : string -> list string) (docs : list string)
  (t : string) (j : nat) :
  CountVectorizer.vocab_index
    (CountVectorizer.vocabulary_ (CountVectorizer.fit_transform tok docs)) t = Some j
  <-> nth_error (CountVectorizer.feature_names_out
                   (CountVectorizer.fit_transform tok docs)) j = Some t.
Proof. exact (VectorizerFacts.fit_vocabulary_spec tok docs t j). Qed.

(** X4.  [cv.transform(new_docs)] with the fitted vocabulary counts, in each
    new document, the occurrences of each feature name: tokens never seen
    during [fit] are dropped, and the width stays the vocabulary size. *)
Theorem X4_transform_counts (tok : string -> list string)
  (docs new_docs : list string) :
  CountVectorizer.transform (CountVectorizer.fit_transform tok docs) tok new_docs =
  map (fun d => map (count_occ string_dec (CountVectorizer.analyzer tok d))
                    (CountVectorizer.feature_names_out
                       (CountVectorizer.fit_transform tok docs))) new_docs.
Proof. exact (VectorizerFacts.transform_counts tok docs new_docs). Qed.

(** X5.  Transforming the training corpus with the fitted vectorizer gives
    back the matrix of [fit_transform]. *)
Theorem X5_transform_after_fit (tok : string -> list string) (docs : list string) :
  CountVectorizer.transform (CountVectorizer.fit_transform tok docs) tok docs =
  CountVectorizer.matrix (CountVectorizer.fit_transform tok docs).
Proof.
  rewrite VectorizerFacts.transform_counts, VectorizerFacts.fit_matrix_counts.
  reflexivity.
Qed.

(** X6.  [fit] raises the empty-vocabulary [ValueError] exactly when every
    document of the corpus tokenizes to the empty list (for instance a
    corpus made only of stop words and punctuation). *)
Theorem X6_fit_empty_vocabulary (tok : string -> list string) (docs : list string) :
  CountVectorizer.fit_transform_checked tok docs = None <->
  Forall (fun d => CountVectorizer.analyzer tok d = []) docs.
Proof. exact (VectorizerFacts.fit_checked_spec tok docs). Qed.

(** X7.  With [tokenizer=spacy_tokenizer], every learned feature name is
    lower-case, is not a stop word and is not a substring of
    [string.punctuation]. *)
Theorem X7_spacy_features_clean (nlp : Pipeline) (docs : list string) :
  Forall (fun t => lower t = t /\ ~ In t stop_words /\ ~ substring_of t punctuations)
    (CountVectorizer.feature_names_out
       (CountVectorizer.fit_transform (spacy_tokenizer nlp) docs)).
Proof.
  apply Forall_forall; intros t Ht.
  apply (proj2 (proj2 (VectorizerFacts.fit_features_spec _ docs))) in Ht.
  destruct Ht as [d [_ Hd]]; unfold CountVectorizer.analyzer in Hd.
  apply spacy_tokenizer_In in Hd; destruct Hd as [Hin [Hs Hp]].
  apply in_map_iff in Hin; destruct Hin as [w [<- _]].
  split; [apply lower_idem | split; assumption].
Qed.

(** X8.  Whenever [precision_score], [recall_score] or [f1_score] returns a
    value, it lies between 0 and 1. *)
Theorem X8_metrics_in_unit_interval (y_true y_pred : list bool) :
  match Metrics.precision_score y_true y_pred with
  | Metrics.Value q _ => (0 <= q <= 1)%Q | Metrics.Raise _ => True end
  /\ match Metrics.recall_score y_true y_pred with
     | Metrics.Value q _ => (0 <= q <= 1)%Q | Metrics.Raise _ => True end
  /\ match Metrics.f1_score y_true y_pred with
     | Metrics.Value q _ => (0 <= q <= 1)%Q | Metrics.Raise _ => True end.
Proof. exact (MetricsFacts.metrics_unit_interval y_true y_pred). Qed.

(** X9.  On label sequences of equal length, [accuracy_score] is [nan] for
    empty sequences; otherwise it is a value between 0 and 1, equal to 1
    exactly when every prediction is right. *)
Theorem X9_accuracy_bounds (y_true y_pred : list bool) :
  List.length y_true = List.length y_pred ->
  (y_true = [] -> Metrics.accuracy_score y_true y_pred = Metrics.AccuracyNaN)
  /\ (y_true <> [] ->
      exists q, Metrics.accuracy_score y_true y_pred = Metrics.Accuracy q
                /\ (0 <= q <= 1)%Q /\ (q == 1 <-> y_true = y_pred)%Q).
Proof. exact (MetricsFacts.accuracy_spec y_true y_pred). Qed.

Lemma X9_accuracy_bounds_witness :
  exists q, Metrics.accuracy_score [true; false] [true; true] = Metrics.Accuracy q
            /\ (0 <= q <= 1)%Q /\ (q == 1 <-> [true; false] = [true; true])%Q.
Proof.
  apply (proj2 (X9_accuracy_bounds [true; false] [true; true] eq_refl)).
  discriminate.
Defined.

(** X10.  When there is at least one true positive, precision, recall and
    F1 are all defined (no warning) and F1 is their harmonic mean
    [2 * p * r / (p + r)]. *)
Theorem X10_f1_harmonic_mean (y_true y_pred : list bool) :
  List.length y_true = List.length y_pred ->
  0 < Metrics.tp_sum y_true y_pred ->
  exists p r f,
    Metrics.precision_score y_true y_pred = Metrics.Value p false
    /\ Metrics.recall_score y_true y_pred = Metrics.Value r false
    /\ Metrics.f1_score y_true y_pred = Metrics.Value f false
    /\ (f == 2 * p * r / (p + r))%Q.
Proof. exact (MetricsFacts.f1_harmonic_mean y_true y_pred). Qed.

Lemma X10_f1_harmonic_mean_witness :
  exists p r f,
    Metrics.precision_score [true; false] [true; true] = Metrics.Value p false
    /\ Metrics.recall_score [true; false] [true; true] = Metrics.Value r false
    /\ Metrics.f1_score [true; false] [true; true] = Metrics.Value f false
    /\ (f == 2 * p * r / (p + r))%Q.
Proof. apply X10_f1_harmonic_mean; [reflexivity | vm_compute; lia]. Defined.
